(** * dataverse_sdk.schemas.client

    A shallow embedding of [python/dataverse_sdk/schemas/client.py]: the
    pydantic models [AttributeOption], [Attribute], [Sensor], [OntologyClass],
    [Ontology], [DataConfig], [Project], [Dataset], the enumeration
    [DataSource], the two class validators, and [Project.create_dataset].

    The models are pydantic (v1) [BaseModel] subclasses, so what a class
    declaration means is fixed by pydantic's [validate_model]; the part of it
    these classes exercise is written out below (fields in declaration order,
    the [values] dictionary handed to class validators, error locations,
    [extra = "allow"]).  Scalar coercions of pydantic and of the Python
    runtime are taken as an interface ([Runtime]); the enumerations imported
    from [schemas/common.py] are taken as an interface too ([Common]). *)

From Stdlib Require Import String Ascii.
From Stdlib Require Import List ZArith NArith Bool Lia.
From Stdlib Require Import Floats.SpecFloat.
Import ListNotations.

Set Warnings "-register-all".

(** ** Python values *)

(** A Python [str] is a sequence of Unicode code points. *)
Definition pystr := list N.

(** Source literals are ASCII; [py "abc"] is the Python string ["abc"]. *)
Definition py (s : string) : pystr :=
  map N_of_ascii (list_ascii_of_string s).

Fixpoint pystr_eqb (a b : pystr) : bool :=
  match a, b with
  | [], [] => true
  | x :: a', y :: b' => N.eqb x y && pystr_eqb a' b'
  | _, _ => false
  end.

(** The values that flow through the models: JSON-like data, enumeration
    members (every enumeration here mixes in [str], so a member carries its
    string value) and model instances (class name and [__dict__]). *)
Inductive PyVal : Type :=
| VNone
| VBool (b : bool)
| VInt (z : Z)
| VFloat (f : spec_float)
| VStr (s : pystr)
| VEnum (cls : pystr) (value : pystr)
| VList (l : list PyVal)
| VDict (d : list (pystr * PyVal))
| VObj (cls : pystr) (d : list (pystr * PyVal)).

(** A Python [dict] with [str] keys, in insertion order. *)
Definition dict := list (pystr * PyVal).

Fixpoint dict_get (k : pystr) (d : dict) : option PyVal :=
  match d with
  | [] => None
  | (k', v) :: d' => if pystr_eqb k k' then Some v else dict_get k d'
  end.

(** [d[k] = v]: replaces in place, or appends a new key. *)
Fixpoint dict_set (k : pystr) (v : PyVal) (d : dict) : dict :=
  match d with
  | [] => [(k, v)]
  | (k', v') :: d' =>
      if pystr_eqb k k' then (k, v) :: d' else (k', v') :: dict_set k v d'
  end.

Definition keys (d : dict) : list pystr := map fst d.

(** Python truthiness, [bool(v)]. *)
Definition truthy (v : PyVal) : bool :=
  match v with
  | VNone => false
  | VBool b => b
  | VInt z => negb (Z.eqb z 0)
  | VFloat f => match f with S754_zero _ => false | _ => true end
  | VStr s | VEnum _ s => match s with [] => false | _ => true end
  | VList l => match l with [] => false | _ => true end
  | VDict d => match d with [] => false | _ => true end
  | VObj _ _ => true
  end.

(** [values.get(k)]: [None] when the key is missing. *)
Definition values_get (k : pystr) (values : dict) : PyVal :=
  match dict_get k values with Some v => v | None => VNone end.

(** ** The runtime interface *)

(** pydantic's scalar validators and the pieces of the Python runtime the
    models rely on.  They are not part of this repository; the three laws are
    the first branch of each validator ([isinstance(v, str)] and so on). *)
Class Runtime : Type := {
  int_validator : PyVal -> option Z;
  float_validator : PyVal -> option spec_float;
  str_validator : PyVal -> option pystr;
  bool_validator : PyVal -> option bool;
  (** [dict(v)] for a [v] that is neither a [dict] nor a model instance *)
  dict_of : PyVal -> option dict;
  (** [str.isalnum] on code points from 128 on (the Unicode database) *)
  unicode_isalnum : N -> bool;
  int_validator_int : forall z, int_validator (VInt z) = Some z;
  str_validator_str : forall s, str_validator (VStr s) = Some s;
  bool_validator_bool : forall b, bool_validator (VBool b) = Some b
}.

(** ** Enumerations *)

(** An [Enum] class with string values. *)
Record EnumDecl : Type := { enum_name : pystr; enum_values : list pystr }.

Definition is_member (E : EnumDecl) (s : pystr) : bool :=
  existsb (pystr_eqb s) (enum_values E).

(** The enumerations imported from [.common] (schemas/common.py), with the
    one member the source names, [AttributeType.OPTION]. *)
Class Common : Type := {
  AnnotationFormat : EnumDecl;
  AttributeType : EnumDecl;
  DatasetStatus : EnumDecl;
  DatasetType : EnumDecl;
  OntologyImageType : EnumDecl;
  OntologyPcdType : EnumDecl;
  SensorType : EnumDecl;
  AttributeType_OPTION : pystr;
  AttributeType_OPTION_member : is_member AttributeType AttributeType_OPTION = true
}.

(** [class DataSource(str, Enum)] *)
Definition DataSource : EnumDecl :=
  {| enum_name := py "DataSource";
     enum_values := [py "azure"; py "aws"; py "sdk"] |}.

(** [v == E.member] for a member with string value [m]: a member of a
    [str]-mixin enumeration compares as its value. *)
Definition eq_member (v : PyVal) (m : pystr) : bool :=
  match v with
  | VStr s | VEnum _ s => pystr_eqb s m
  | _ => false
  end.

(** ** Regular expression of the colour check *)

Definition in_range (lo hi c : N) : bool := N.leb lo c && N.leb c hi.

(** The character class [[a-zA-Z0-9]]. *)
Definition class_alnum (c : N) : bool :=
  in_range 97 122 c || in_range 65 90 c || in_range 48 57 c.

Section Regex.
Context {R : Runtime}.

(** A word character for [\b] in a [str] pattern: alphanumeric or [_]. *)
Definition is_word (c : N) : bool :=
  if N.ltb c 128 then class_alnum c || N.eqb c 95 else unicode_isalnum c.

Definition word_at (c : option N) : bool :=
  match c with Some c => is_word c | None => false end.

(** [\b] between [prev] and [next]; outside the string counts as non-word. *)
Definition boundary (prev next : option N) : bool :=
  xorb (word_at prev) (word_at next).

(** [\b[a-zA-Z0-9]{6}\b] matched at the current position; [prev] is the
    character before it. *)
Definition match_here (prev : option N) (s : pystr) : bool :=
  boundary prev (hd_error s)
  && Nat.leb 6 (length s)
  && forallb class_alnum (firstn 6 s)
  && boundary (nth_error s 5) (nth_error s 6).

(** [re.search]: the first position, left to right, where the pattern
    matches. *)
Fixpoint search_from (prev : option N) (s : pystr) : bool :=
  match_here prev s
  || match s with
     | [] => false
     | c :: s' => search_from (Some c) s'
     end.

Definition re_search (s : pystr) : bool := search_from None s.
End Regex.

(** [s.startswith("#")] *)
Definition startswith_hash (s : pystr) : bool :=
  match s with c :: _ => N.eqb c 35 | [] => false end.

(** [s.lstrip("#")]: every leading [#] is removed. *)
Fixpoint lstrip_hash (s : pystr) : pystr :=
  match s with
  | c :: s' => if N.eqb c 35 then lstrip_hash s' else s
  | [] => []
  end.

(** ** Validation errors *)

(** One step of an error location: a field name or a list index. *)
Inductive LocItem : Type := LKey (k : pystr) | LIdx (i : nat).

(** The exceptions pydantic records; [ValueError] is what a class validator
    raises, with its message. *)
Inductive ErrKind : Type :=
| MissingError
| NoneIsNotAllowedError
| IntegerError
| FloatError
| StrError
| BoolError
| ListError
| DictError
| EnumMemberError (permitted : list pystr)
| ValueError (msg : pystr).

(** An entry of [ValidationError.errors()]. *)
Record ErrorWrapper : Type := { loc : list LocItem; exc : ErrKind }.

Definition error_at (e : ErrKind) : list ErrorWrapper :=
  [{| loc := []; exc := e |}].

(** Errors of a nested value are reported under the enclosing location. *)
Definition under (l : LocItem) (es : list ErrorWrapper) : list ErrorWrapper :=
  map (fun e => {| loc := l :: loc e; exc := exc e |}) es.

(** A validator gets the fields validated so far and the value; it returns the
    (possibly converted) value or the errors. *)
Definition Validator : Type := dict -> PyVal -> PyVal + list ErrorWrapper.

(** ** The class validators of the source *)

Section ClassValidators.
Context {R : Runtime} {C : Common}.

(** [Attribute.option_data_validator(cls, value, values)] *)
Definition option_data_validator (value : PyVal) (values : dict)
  : PyVal + pystr :=
  if eq_member value AttributeType_OPTION
     && negb (truthy (values_get (py "options") values))
  then inr (py "Need to assign value for `options` if the Attribute type is option")
  else inl value.

(** [OntologyClass.color_validator(cls, value)] *)
Definition color_validator (value : pystr) : pystr + pystr :=
  if negb (startswith_hash value) || negb (re_search (lstrip_hash value))
  then inr (py "Color field needs starts with `#` and has 6 digits behind it, get : "
            ++ value)
  else inl value.
End ClassValidators.

(** ** pydantic fields and models *)

Inductive Shape : Type := SHAPE_SINGLETON | SHAPE_LIST.

(** A [ModelField].  [validators] is the chain for the value itself (or for
    each item of a list): the validators of the annotated type, then the class
    validators declared with [each_item=True].  [post_validators] are the
    other class validators, run on the whole value afterwards. *)
Record ModelField : Type := {
  name : pystr;
  required : bool;
  default : PyVal;
  allow_none : bool;
  shape : Shape;
  validators : list Validator;
  post_validators : list Validator
}.

Inductive Extra : Type := ignore | allow.

Record Model : Type := {
  model_name : pystr;
  fields : list ModelField;
  extra : Extra
}.

(** [ModelField._apply_validators]: in order, stopping at the first error. *)
Fixpoint apply_validators (vs : list Validator) (values : dict) (v : PyVal)
  : PyVal + list ErrorWrapper :=
  match vs with
  | [] => inl v
  | f :: vs' =>
      match f values v with
      | inl v' => apply_validators vs' values v'
      | inr es => inr es
      end
  end.

(** An item of a list field; its type is never [Optional] in this file. *)
Definition validate_item (f : ModelField) (values : dict) (v : PyVal)
  : PyVal + list ErrorWrapper :=
  match v with
  | VNone => inr (error_at NoneIsNotAllowedError)
  | _ => apply_validators (validators f) values v
  end.

(** The loop of [_validate_sequence_like]: the validated items and the errors,
    each under its index. *)
Fixpoint validate_items (f : ModelField) (values : dict) (i : nat)
  (l : list PyVal) : list PyVal * list ErrorWrapper :=
  match l with
  | [] => ([], [])
  | v :: l' =>
      let '(rs, es) := validate_items f values (S i) l' in
      match validate_item f values v with
      | inl r => (r :: rs, es)
      | inr ee => (rs, under (LIdx i) ee ++ es)
      end
  end.

(** [_validate_sequence_like] for a list field.  pydantic takes a list, a
    tuple, a set, a frozenset, a deque or a generator here; of the values
    modelled ([PyVal]) only the list is one of these, and every other value
    modelled is refused. *)
Definition validate_sequence_like (f : ModelField) (values : dict) (v : PyVal)
  : PyVal + list ErrorWrapper :=
  match v with
  | VList l =>
      match validate_items f values 0 l with
      | (rs, []) => inl (VList rs)
      | (_, es) => inr es
      end
  | _ => inr (error_at ListError)
  end.

(** [ModelField.validate] *)
Definition field_validate (f : ModelField) (values : dict) (v : PyVal)
  : PyVal + list ErrorWrapper :=
  match v with
  | VNone =>
      if allow_none f then apply_validators (post_validators f) values VNone
      else inr (error_at NoneIsNotAllowedError)
  | _ =>
      match match shape f with
            | SHAPE_SINGLETON => apply_validators (validators f) values v
            | SHAPE_LIST => validate_sequence_like f values v
            end with
      | inl v' => apply_validators (post_validators f) values v'
      | inr es => inr es
      end
  end.

(** The field loop of [validate_model]: [values] collects the fields that
    validated, [errors] the failures of the others. *)
Fixpoint validate_fields (fs : list ModelField) (input values : dict)
  (errors : list ErrorWrapper) : dict * list ErrorWrapper :=
  match fs with
  | [] => (values, errors)
  | f :: fs' =>
      match dict_get (name f) input with
      | None =>
          if required f
          then validate_fields fs' input values
                 (errors ++ under (LKey (name f)) (error_at MissingError))
          else validate_fields fs' input
                 (dict_set (name f) (default f) values) errors
      | Some v =>
          match field_validate f values v with
          | inl v' =>
              validate_fields fs' input (dict_set (name f) v' values) errors
          | inr es =>
              validate_fields fs' input values
                (errors ++ under (LKey (name f)) es)
          end
      end
  end.

Definition is_field (M : Model) (k : pystr) : bool :=
  existsb (fun f => pystr_eqb k (name f)) (fields M).

(** [for f in extra: values[f] = input_data[f]], over the keys of the input
    that name no field. *)
Definition keep_extra (M : Model) (input : dict) (values : dict) : dict :=
  fold_left
    (fun vals k =>
       if is_field M k then vals
       else match dict_get k input with
            | Some v => dict_set k v vals
            | None => vals
            end)
    (keys input) values.

(** [validate_model(model, input_data)] *)
Definition validate_model (M : Model) (input : dict)
  : dict * list ErrorWrapper :=
  let '(values, errors) := validate_fields (fields M) input [] [] in
  match extra M with
  | ignore => (values, errors)
  | allow => (keep_extra M input values, errors)
  end.

(** [BaseModel.__init__] on the keyword arguments [input]: the instance, or
    the [ValidationError] with its errors. *)
Definition construct (M : Model) (input : dict) : PyVal + list ErrorWrapper :=
  match validate_model M input with
  | (values, []) => inl (VObj (model_name M) values)
  | (_, errors) => inr errors
  end.

Section TypeValidators.
Context {R : Runtime}.

Definition scalar {A} (f : PyVal -> option A) (inj : A -> PyVal)
  (e : ErrKind) : Validator :=
  fun _ v => match f v with Some a => inl (inj a) | None => inr (error_at e) end.

Definition int_ : Validator := scalar int_validator VInt IntegerError.
Definition float_ : Validator := scalar float_validator VFloat FloatError.
Definition str_ : Validator := scalar str_validator VStr StrError.
Definition bool_ : Validator := scalar bool_validator VBool BoolError.

(** [Union[...]] (no smart union): the first type that accepts the value;
    if none does, every error. *)
Fixpoint union_ (vs : list Validator) : Validator :=
  fun values v =>
    match vs with
    | [] => inr []
    | f :: vs' =>
        match f values v with
        | inl r => inl r
        | inr es =>
            match union_ vs' values v with
            | inl r => inl r
            | inr es' => inr (es ++ es')
            end
        end
    end.

(** [enum_member_validator]: [E(v)] looks the value up among the members;
    with [use_enum_values] the member's value is stored, else the member. *)
Definition enum_ (E : EnumDecl) (use_enum_values : bool) : Validator :=
  fun _ v =>
    match v with
    | VStr s | VEnum _ s =>
        if is_member E s
        then inl (if use_enum_values then VStr s else VEnum (enum_name E) s)
        else inr (error_at (EnumMemberError (enum_values E)))
    | _ => inr (error_at (EnumMemberError (enum_values E)))
    end.

(** [BaseModel.validate]: an instance of the class is taken as it is, a
    [dict] is passed to the constructor, anything else goes through
    [dict(value)] first. *)
Definition model_ (M : Model) : Validator :=
  fun _ v =>
    match v with
    | VDict d => construct M d
    | VObj c d => if pystr_eqb c (model_name M) then inl v else construct M d
    | _ =>
        match dict_of v with
        | Some d => construct M d
        | None => inr (error_at DictError)
        end
    end.

(** A class validator, run by pydantic: a raised [ValueError] becomes an
    error of the field. *)
Definition class_validator (f : PyVal -> dict -> PyVal + pystr) : Validator :=
  fun values v =>
    match f v values with
    | inl r => inl r
    | inr msg => inr (error_at (ValueError msg))
    end.

(** The chain of a [str] field with a class validator declared with
    [each_item=True]: [str_validator], then the class validator on the
    string that one returned. *)
Definition str_each (f : pystr -> pystr + pystr) : Validator :=
  fun _ v =>
    match str_validator v with
    | None => inr (error_at StrError)
    | Some s =>
        match f s with
        | inl r => inl (VStr r)
        | inr msg => inr (error_at (ValueError msg))
        end
    end.
End TypeValidators.

(** ** The models of the source *)

(** How an annotation becomes a field: [T] alone is required; [Optional[T]],
    with or without [= None], is not required, defaults to [None] and accepts
    [None]; [T = d] is not required and defaults to [d]. *)
Definition annotated (n : string) (sh : Shape) (vs : list Validator)
  : ModelField :=
  {| name := py n; required := true; default := VNone; allow_none := false;
     shape := sh; validators := vs; post_validators := [] |}.

Definition optional (n : string) (sh : Shape) (vs : list Validator)
  : ModelField :=
  {| name := py n; required := false; default := VNone; allow_none := true;
     shape := sh; validators := vs; post_validators := [] |}.

Definition defaulted (n : string) (d : PyVal) (sh : Shape)
  (vs : list Validator) : ModelField :=
  {| name := py n; required := false; default := d; allow_none := false;
     shape := sh; validators := vs; post_validators := [] |}.

(** [@validator(n)] on a field: a class validator run after the type's. *)
Definition with_validator (f : ModelField) (v : Validator) : ModelField :=
  {| name := name f; required := required f; default := default f;
     allow_none := allow_none f; shape := shape f;
     validators := validators f;
     post_validators := post_validators f ++ [v] |}.

Section Models.
Context {R : Runtime} {C : Common}.

Definition AttributeOption : Model :=
  {| model_name := py "AttributeOption";
     fields :=
       [ optional "id" SHAPE_SINGLETON [int_];
         annotated "value" SHAPE_SINGLETON
           [union_ [str_; float_; int_; bool_]] ];
     extra := ignore |}.

(** [Config.use_enum_values = True] *)
Definition Attribute : Model :=
  {| model_name := py "Attribute";
     fields :=
       [ optional "id" SHAPE_SINGLETON [int_];
         annotated "name" SHAPE_SINGLETON [str_];
         optional "options" SHAPE_LIST [model_ AttributeOption];
         with_validator
           (annotated "type" SHAPE_SINGLETON [enum_ AttributeType true])
           (class_validator option_data_validator) ];
     extra := ignore |}.

(** [Config.use_enum_values = True] *)
Definition Sensor : Model :=
  {| model_name := py "Sensor";
     fields :=
       [ optional "id" SHAPE_SINGLETON [int_];
         annotated "name" SHAPE_SINGLETON [str_];
         annotated "type" SHAPE_SINGLETON [enum_ SensorType true] ];
     extra := ignore |}.

(** [color] is a plain [str], so its [each_item=True] validator joins the
    chain of the value itself. *)
Definition OntologyClass : Model :=
  {| model_name := py "OntologyClass";
     fields :=
       [ optional "id" SHAPE_SINGLETON [int_];
         annotated "name" SHAPE_SINGLETON [str_];
         annotated "color" SHAPE_SINGLETON [str_each color_validator];
         annotated "rank" SHAPE_SINGLETON [int_];
         optional "attributes" SHAPE_LIST [model_ Attribute] ];
     extra := ignore |}.

(** [Config.use_enum_values = True] *)
Definition Ontology : Model :=
  {| model_name := py "Ontology";
     fields :=
       [ optional "id" SHAPE_SINGLETON [int_];
         annotated "name" SHAPE_SINGLETON [str_];
         optional "image_type" SHAPE_SINGLETON [enum_ OntologyImageType true];
         optional "pcd_type" SHAPE_SINGLETON [enum_ OntologyPcdType true];
         optional "classes" SHAPE_LIST [model_ OntologyClass] ];
     extra := ignore |}.

(** [Config.extra = "allow"] *)
Definition DataConfig : Model :=
  {| model_name := py "DataConfig";
     fields :=
       [ annotated "storage_url" SHAPE_SINGLETON [str_];
         optional "container_name" SHAPE_SINGLETON [str_];
         optional "sas_token" SHAPE_SINGLETON [str_];
         annotated "data_folder" SHAPE_SINGLETON [str_];
         annotated "sequential" SHAPE_SINGLETON [bool_];
         annotated "generate_metadata" SHAPE_SINGLETON [bool_];
         optional "description" SHAPE_SINGLETON [str_];
         annotated "type" SHAPE_SINGLETON [str_];
         annotated "annotation_format" SHAPE_SINGLETON [str_] ];
     extra := allow |}.

Definition Project : Model :=
  {| model_name := py "Project";
     fields :=
       [ optional "id" SHAPE_SINGLETON [int_];
         annotated "name" SHAPE_SINGLETON [str_];
         optional "description" SHAPE_SINGLETON [str_];
         optional "ego_car" SHAPE_SINGLETON [str_];
         annotated "ontology" SHAPE_SINGLETON [model_ Ontology];
         annotated "sensors" SHAPE_LIST [model_ Sensor] ];
     extra := ignore |}.

(** [Config.extra = "allow"]; enumeration members are stored as members. *)
Definition Dataset : Model :=
  {| model_name := py "Dataset";
     fields :=
       [ optional "id" SHAPE_SINGLETON [int_];
         annotated "project" SHAPE_SINGLETON [model_ Project];
         annotated "sensors" SHAPE_LIST [model_ Sensor];
         annotated "name" SHAPE_SINGLETON [str_];
         annotated "type" SHAPE_SINGLETON [enum_ DatasetType false];
         annotated "data_source" SHAPE_SINGLETON [enum_ DataSource false];
         annotated "annotation_format" SHAPE_SINGLETON
           [enum_ AnnotationFormat false];
         annotated "status" SHAPE_SINGLETON [enum_ DatasetStatus false];
         defaulted "sequential" (VBool false) SHAPE_SINGLETON [bool_];
         defaulted "generate_metadata" (VBool false) SHAPE_SINGLETON [bool_];
         optional "description" SHAPE_SINGLETON [str_];
         optional "file_count" SHAPE_SINGLETON [int_];
         optional "image_count" SHAPE_SINGLETON [int_];
         optional "pcd_count" SHAPE_SINGLETON [int_];
         optional "created_by" SHAPE_SINGLETON [int_];
         optional "container_name" SHAPE_SINGLETON [str_];
         optional "storage_url" SHAPE_SINGLETON [str_] ];
     extra := allow |}.
End Models.

(** [BaseModel.dict()]: nested models become dictionaries, containers are
    rebuilt around their converted items, anything else is kept.  (No class
    that stores enumeration members sets [use_enum_values].) *)
Fixpoint get_value (v : PyVal) : PyVal :=
  match v with
  | VObj _ d => VDict (map (fun kv => (fst kv, get_value (snd kv))) d)
  | VDict d => VDict (map (fun kv => (fst kv, get_value (snd kv))) d)
  | VList l => VList (map get_value l)
  | _ => v
  end.

Definition model_dict (m : PyVal) : option dict :=
  match m with
  | VObj _ d => Some (map (fun kv => (fst kv, get_value (snd kv))) d)
  | _ => None
  end.

(** ** Exceptions, the process state and the client *)

(** Exception classes.  The first five derive from [Exception]
    ([OtherException] is any other class that does); the last three derive
    from [BaseException] only, and [except Exception] lets them pass. *)
Inductive ExcClass : Type :=
| ClientConnectionError
| ValidationError
| AttributeError
| ModuleNotFoundError
| OtherException (cls : pystr)
| KeyboardInterrupt
| SystemExit
| OtherBaseException (cls : pystr).

(** An exception instance: its class, [str(e)], [__cause__] (set by
    [raise ... from]) and [__context__] (the exception being handled when it
    was raised). *)
Inductive PyExc : Type :=
  Exc (cls : ExcClass) (msg : pystr) (cause context : option PyExc).

Definition exc_class (e : PyExc) : ExcClass := let 'Exc c _ _ _ := e in c.
Definition exc_str (e : PyExc) : pystr := let 'Exc _ m _ _ := e in m.
Definition exc_cause (e : PyExc) : option PyExc := let 'Exc _ _ c _ := e in c.
Definition exc_context (e : PyExc) : option PyExc := let 'Exc _ _ _ c := e in c.

(** [isinstance(e, Exception)] *)
Definition is_Exception (e : PyExc) : bool :=
  match exc_class e with
  | KeyboardInterrupt | SystemExit | OtherBaseException _ => false
  | _ => true
  end.

Definition is_ClientConnectionError (e : PyExc) : bool :=
  match exc_class e with ClientConnectionError => true | _ => false end.

Definition is_ValidationError (e : PyExc) : bool :=
  match exc_class e with ValidationError => true | _ => false end.

(** Objects live in a store; a variable holds an address. *)
Definition addr := nat.
Definition Store := list (addr * PyVal).

Fixpoint store_get (a : addr) (st : Store) : option PyVal :=
  match st with
  | [] => None
  | (a', v) :: st' => if Nat.eqb a a' then Some v else store_get a st'
  end.

(** [getattr(obj, k)] for the object at address [a]. *)
Definition getattr (st : Store) (a : addr) (k : pystr) : option PyVal :=
  match store_get a st with
  | Some (VObj _ d) => dict_get k d
  | _ => None
  end.

(** The keyword arguments of [client.create_dataset]; [project] is the
    Project object itself, passed by reference. *)
Record Request : Type := {
  req_name : PyVal;
  req_data_source : PyVal;
  req_project : addr;
  req_sensors : PyVal;
  req_type : PyVal;
  req_annotation_format : PyVal;
  req_storage_url : PyVal;
  req_container_name : PyVal;
  req_data_folder : PyVal;
  req_sas_token : PyVal;
  req_sequential : PyVal;
  req_generate_metadata : PyVal;
  req_description : PyVal
}.

Inductive Outcome : Type := Returns (v : PyVal) | Raises (e : PyExc).

(** The external client's [create_dataset]: any function of the request and
    the store, which it may also change. *)
Definition Collaborator : Type := Request -> Store -> Outcome * Store.

(** What [config._client] is bound to: [None], or an object with a
    [create_dataset] method. *)
Inductive ClientObj : Type :=
| PyNone
| Client (method : Collaborator).

(** The module [config] as [import config] finds it: the import raises, or
    the module is there, with or without the attribute [_client]. *)
Inductive ConfigModule : Type :=
| ImportRaises (e : PyExc)
| Imported (_client : option ClientObj).

(** The process: the [config] module, the object store, and the requests the
    client's [create_dataset] has received so far. *)
Record World : Type := {
  config : ConfigModule;
  store : Store;
  calls : list Request
}.

(** Computations that read and change the process and may raise. *)
Definition M (A : Type) : Type := World -> (A + PyExc) * World.

Definition ret {A} (a : A) : M A := fun w => (inl a, w).

Definition raise {A} (e : PyExc) : M A := fun w => (inr e, w).

Definition bind {A B} (m : M A) (k : A -> M B) : M B :=
  fun w =>
    match m w with
    | (inl a, w') => k a w'
    | (inr e, w') => (inr e, w')
    end.

(** [try: body except Exception as e: handler(e)]: the handler gets the
    exceptions that are instances of [Exception]; any other exception leaves
    the statement as it is. *)
Definition try_except {A} (body : M A) (handler : PyExc -> M A) : M A :=
  fun w =>
    match body w with
    | (inl a, w') => (inl a, w')
    | (inr e, w') => if is_Exception e then handler e w' else (inr e, w')
    end.

Declare Scope py_scope.
Delimit Scope py_scope with pym.
Notation "x <- m ;; k" := (bind m (fun x => k))
  (at level 61, m at next level, right associativity) : py_scope.

(** [raise cls(msg)] inside [except ... as e]: the handled exception becomes
    the context of the new one; no cause is given. *)
Definition raise_while_handling {A} (e : PyExc) (cls : ExcClass) (msg : pystr)
  : M A :=
  raise (Exc cls msg None (Some e)).

(** [import config; client = config._client] *)
Definition import_config_client : M ClientObj :=
  fun w =>
    match config w with
    | ImportRaises e => (inr e, w)
    | Imported None =>
        (inr (Exc AttributeError
                (py "module 'config' has no attribute '_client'") None None), w)
    | Imported (Some c) => (inl c, w)
    end.

(** [client.create_dataset(...)]: the attribute is looked up, then the method
    runs on the request; the call is recorded. *)
Definition call_create_dataset (client : ClientObj) (req : Request) : M PyVal :=
  fun w =>
    match client with
    | PyNone =>
        (inr (Exc AttributeError
                (py "'NoneType' object has no attribute 'create_dataset'")
                None None), w)
    | Client method =>
        let '(out, st) := method req (store w) in
        (match out with Returns v => inl v | Raises e => inr e end,
         {| config := config w; store := st; calls := calls w ++ [req] |})
    end.

(** An argument with a default: [None] when the caller leaves it out. *)
Definition arg_default (d : PyVal) (a : option PyVal) : PyVal :=
  match a with Some v => v | None => d end.

Open Scope py_scope.

(** [Project.create_dataset(self, name, data_source, sensors, type,
    annotation_format, storage_url, data_folder, container_name=None,
    sas_token=None, sequential=False, generate_metadata=False,
    description=None)] *)
Definition create_dataset (self : addr)
  (name data_source sensors type annotation_format storage_url data_folder
     : PyVal)
  (container_name sas_token sequential generate_metadata description
     : option PyVal) : M PyVal :=
  client <- try_except import_config_client
              (fun e => raise_while_handling e ClientConnectionError
                          (py "Failed to get client info: " ++ exc_str e)) ;;
  dataset_output <-
    call_create_dataset client
      {| req_name := name;
         req_data_source := data_source;
         req_project := self;
         req_sensors := sensors;
         req_type := type;
         req_annotation_format := annotation_format;
         req_storage_url := storage_url;
         req_container_name := arg_default VNone container_name;
         req_data_folder := data_folder;
         req_sas_token := arg_default VNone sas_token;
         req_sequential := arg_default (VBool false) sequential;
         req_generate_metadata := arg_default (VBool false) generate_metadata;
         req_description := arg_default VNone description |} ;;
  ret dataset_output.

Close Scope py_scope.

(** ** A runtime and enumerations for closed examples *)

(** A runtime that takes a value of the field's own type as pydantic does and
    refuses every other value (pydantic would try a conversion there).  The
    examples below are ASCII and pass values of the declared types only. *)
Definition native_int (v : PyVal) : option Z :=
  match v with VInt z => Some z | _ => None end.
Definition native_float (v : PyVal) : option spec_float :=
  match v with VFloat f => Some f | _ => None end.
Definition native_str (v : PyVal) : option pystr :=
  match v with VStr s => Some s | _ => None end.
Definition native_bool (v : PyVal) : option bool :=
  match v with VBool b => Some b | _ => None end.

#[local] Instance native_runtime : Runtime :=
  {| int_validator := native_int;
     float_validator := native_float;
     str_validator := native_str;
     bool_validator := native_bool;
     dict_of := fun _ => None;
     unicode_isalnum := fun _ => false;
     int_validator_int := fun _ => eq_refl;
     str_validator_str := fun _ => eq_refl;
     bool_validator_bool := fun _ => eq_refl |}.

(** The enumeration values the scenario of the specification uses. *)
#[local] Instance scenario_common : Common :=
  {| AnnotationFormat :=
       {| enum_name := py "AnnotationFormat"; enum_values := [py "coco"] |};
     AttributeType :=
       {| enum_name := py "AttributeType";
          enum_values := [py "option"; py "text"; py "number"] |};
     DatasetStatus :=
       {| enum_name := py "DatasetStatus"; enum_values := [py "processing"] |};
     DatasetType :=
       {| enum_name := py "DatasetType";
          enum_values := [py "2d_bounding_box"] |};
     OntologyImageType :=
       {| enum_name := py "OntologyImageType"; enum_values := [] |};
     OntologyPcdType :=
       {| enum_name := py "OntologyPcdType"; enum_values := [] |};
     SensorType :=
       {| enum_name := py "SensorType";
          enum_values := [py "camera"; py "lidar"] |};
     AttributeType_OPTION := py "option";
     AttributeType_OPTION_member := eq_refl |}.

Definition cam0_input : dict :=
  [(py "name", VStr (py "cam0")); (py "type", VStr (py "camera"))].

Definition car_input : dict :=
  [(py "name", VStr (py "car")); (py "color", VStr (py "#FF0000"));
   (py "rank", VInt 1)].

Definition scenario_project_input : dict :=
  [(py "name", VStr (py "P"));
   (py "ontology",
     VDict [(py "name", VStr (py "O")); (py "classes", VList [VDict car_input])]);
   (py "sensors", VList [VDict cam0_input])].

Definition or_none (r : PyVal + list ErrorWrapper) : PyVal :=
  match r with inl v => v | inr _ => VNone end.

Definition cam0 : PyVal := or_none (construct Sensor cam0_input).
Definition scenario_project : PyVal :=
  or_none (construct Project scenario_project_input).

(** [Dataset(id=7, status="processing", ...)] as the client stub builds it. *)
Definition dataset7_input : dict :=
  [(py "id", VInt 7);
   (py "project", scenario_project);
   (py "sensors", VList [cam0]);
   (py "name", VStr (py "ds1"));
   (py "type", VStr (py "2d_bounding_box"));
   (py "data_source", VStr (py "sdk"));
   (py "annotation_format", VStr (py "coco"));
   (py "status", VStr (py "processing"))].

Definition dataset7 : PyVal := or_none (construct Dataset dataset7_input).

(** Client test doubles. *)
Definition stub_returning (v : PyVal) : Collaborator :=
  fun _ st => (Returns v, st).

Definition stub_raising (e : PyExc) : Collaborator :=
  fun _ st => (Raises e, st).

(** A client that renames the project it is handed. *)
Definition stub_renaming (v : PyVal) : Collaborator :=
  fun req st =>
    (Returns v,
     map (fun av =>
            if Nat.eqb (fst av) (req_project req)
            then match snd av with
                 | VObj c d => (fst av, VObj c (dict_set (py "name") (VStr (py "renamed")) d))
                 | o => (fst av, o)
                 end
            else av) st).

Definition world_with (c : ConfigModule) : World :=
  {| config := c; store := [(0, scenario_project)]; calls := [] |}.

Definition timeout_error : PyExc :=
  Exc (OtherException (py "TimeoutError")) (py "timed out") None None.

Definition interrupted : PyExc :=
  Exc KeyboardInterrupt [] None None.

Definition no_config_module : PyExc :=
  Exc ModuleNotFoundError (py "No module named 'config'") None None.

(** The scenario call:
    [P.create_dataset(name="ds1", data_source="sdk", sensors=..., type="2d_bounding_box",
    annotation_format="coco", storage_url="s3://bucket", data_folder="raw/")]. *)
Definition scenario_call (sensors : PyVal) : M PyVal :=
  create_dataset 0 (VStr (py "ds1")) (VStr (py "sdk")) sensors
    (VStr (py "2d_bounding_box")) (VStr (py "coco")) (VStr (py "s3://bucket"))
    (VStr (py "raw/")) None None None None None.

Definition scenario_request (sensors : PyVal) : Request :=
  {| req_name := VStr (py "ds1");
     req_data_source := VStr (py "sdk");
     req_project := 0;
     req_sensors := sensors;
     req_type := VStr (py "2d_bounding_box");
     req_annotation_format := VStr (py "coco");
     req_storage_url := VStr (py "s3://bucket");
     req_container_name := VNone;
     req_data_folder := VStr (py "raw/");
     req_sas_token := VNone;
     req_sequential := VBool false;
     req_generate_metadata := VBool false;
     req_description := VNone |}.

(** ** The specification's colour pattern *)

(** [^#[0-9A-Za-z]{6}$]: a [#] and exactly six alphanumeric characters. *)
Definition color_pattern (s : pystr) : bool :=
  match s with
  | c :: six =>
      N.eqb c 35 && Nat.eqb (List.length six) 6 && forallb class_alnum six
  | [] => false
  end.

(** ** Plain data *)

(** Values without model instances: what [dict()] gives back unchanged. *)
Fixpoint plain (v : PyVal) : bool :=
  match v with
  | VObj _ _ => false
  | VDict d => forallb (fun kv => plain (snd kv)) d
  | VList l => forallb plain l
  | _ => true
  end.

(** The part of an input that names declared fields. *)
Definition known_part (M : Model) (input : dict) : dict :=
  filter (fun kv => is_field M (fst kv)) input.

Definition succeeds (r : PyVal + list ErrorWrapper) : Prop :=
  exists m, r = inl m.

Definition fails (r : PyVal + list ErrorWrapper) : Prop :=
  exists es, r = inr es.

(** ** Vocabulary of the statements *)

(** The keyword arguments [create_dataset] passes to the client. *)
Definition request_of (self : addr)
  (name data_source sensors type annotation_format storage_url data_folder
     : PyVal)
  (container_name sas_token sequential generate_metadata description
     : option PyVal) : Request :=
  {| req_name := name;
     req_data_source := data_source;
     req_project := self;
     req_sensors := sensors;
     req_type := type;
     req_annotation_format := annotation_format;
     req_storage_url := storage_url;
     req_container_name := arg_default VNone container_name;
     req_data_folder := data_folder;
     req_sas_token := arg_default VNone sas_token;
     req_sequential := arg_default (VBool false) sequential;
     req_generate_metadata := arg_default (VBool false) generate_metadata;
     req_description := arg_default VNone description |}.

(** The ClientConnectionError of the [except] branch, for the failure [e]. *)
Definition wrapped (e : PyExc) : PyExc :=
  Exc ClientConnectionError (py "Failed to get client info: " ++ exc_str e)
    None (Some e).

(** A sensor the project does not have. *)
Definition lidar9 : PyVal :=
  VObj (py "Sensor")
    [(py "id", VInt 9); (py "name", VStr (py "top")); (py "type", VStr (py "lidar"))].

(** What the loop of [validate_model] does with one field. *)
Definition field_step (f : ModelField) (input values : dict)
  : PyVal + list ErrorWrapper :=
  match dict_get (name f) input with
  | None => if required f then inr (error_at MissingError) else inl (default f)
  | Some v => field_validate f values v
  end.

(** A field the input fills acceptably, whatever was validated before it. *)
Definition field_ok (f : ModelField) (input : dict) : Prop :=
  forall values, succeeds (field_step f input values).

Section Vocabulary.
Context {R : Runtime} {C : Common}.

(** Every field of the source annotated with an enumeration: the model, the
    field and the enumeration. *)
Definition enum_fields : list (Model * pystr * EnumDecl) :=
  [ (Attribute, py "type", AttributeType);
    (Sensor, py "type", SensorType);
    (Ontology, py "image_type", OntologyImageType);
    (Ontology, py "pcd_type", OntologyPcdType);
    (Dataset, py "type", DatasetType);
    (Dataset, py "data_source", DataSource);
    (Dataset, py "annotation_format", AnnotationFormat);
    (Dataset, py "status", DatasetStatus) ].

(** The fields [options] and [type] of Attribute. *)
Definition Attribute_options : ModelField :=
  optional "options" SHAPE_LIST [model_ AttributeOption].

Definition Attribute_type : ModelField :=
  with_validator
    (annotated "type" SHAPE_SINGLETON [enum_ AttributeType true])
    (class_validator option_data_validator).
End Vocabulary.

(** The input value [v] denotes the enumeration value [t], given as a string
    or as a member. *)
Definition denotes (v : PyVal) (t : pystr) : Prop :=
  v = VStr t \/ exists c, v = VEnum c t.

(** [options] is left out, is [None], or is the empty list. *)
Definition options_absent_or_empty (d : dict) : Prop :=
  dict_get (py "options") d = None
  \/ dict_get (py "options") d = Some VNone
  \/ dict_get (py "options") d = Some (VList []).

(** An OntologyClass input with the given colour, and the instance it
    gives. *)
Definition class_input (color : string) : dict :=
  [(py "name", VStr (py "car")); (py "color", VStr (py color));
   (py "rank", VInt 1)].

Definition class_instance (color : string) : PyVal :=
  VObj (py "OntologyClass")
    [(py "id", VNone); (py "name", VStr (py "car"));
     (py "color", VStr (py color)); (py "rank", VInt 1);
     (py "attributes", VNone)].


(** ** Further vocabulary *)

(** The character before a match that starts after [pre]: the last character
    of [pre], or [prev] when [pre] is empty. *)
Definition before (prev : option N) (pre : pystr) : option N :=
  fold_left (fun _ c => Some c) pre prev.

(** Six characters of the class [[a-zA-Z0-9]]. *)
Definition six_alnum (mid : pystr) : Prop :=
  List.length mid = 6 /\ forallb class_alnum mid = true.

(** A run of [n] characters [#]. *)
Definition hashes (n : nat) : pystr := repeat 35%N n.

(** A validator that never fails without saying why. *)
Definition honest (val : Validator) : Prop :=
  forall values v es, val values v = inr es -> es <> [].

Definition honest_field (f : ModelField) : Prop :=
  Forall honest (validators f) /\ Forall honest (post_validators f).

Fixpoint nodupb (l : list pystr) : bool :=
  match l with
  | [] => true
  | k :: l' => negb (existsb (pystr_eqb k) l') && nodupb l'
  end.

(** What an instance holds for the fields the input leaves out. *)
Definition field_defaults (M : Model) : dict :=
  map (fun f => (name f, default f))
    (filter (fun f => negb (required f)) (fields M)).

Section SourceTables.
Context {R : Runtime} {C : Common}.

(** The models of the file. *)
Definition models : list Model :=
  [AttributeOption; Attribute; Sensor; OntologyClass; Ontology; DataConfig;
   Project; Dataset].

(** The models without [Config.extra]. *)
Definition closed_models : list Model :=
  [AttributeOption; Attribute; Sensor; OntologyClass; Ontology; Project].

(** The fields annotated with a bare type, no [Optional] and no default. *)
Definition required_fields : list (Model * list pystr) :=
  [ (AttributeOption, [py "value"]);
    (Attribute, [py "name"; py "type"]);
    (Sensor, [py "name"; py "type"]);
    (OntologyClass, [py "name"; py "color"; py "rank"]);
    (Ontology, [py "name"]);
    (DataConfig,
      [py "storage_url"; py "data_folder"; py "sequential";
       py "generate_metadata"; py "type"; py "annotation_format"]);
    (Project, [py "name"; py "ontology"; py "sensors"]);
    (Dataset,
      [py "project"; py "sensors"; py "name"; py "type"; py "data_source";
       py "annotation_format"; py "status"]) ].

(** The fields annotated [T = d] with [T] not [Optional]. *)
Definition defaulted_fields : list (Model * list pystr) :=
  [ (Dataset, [py "sequential"; py "generate_metadata"]) ].

(** The fields annotated [list[X]] or [Optional[list[X]]], with the model
    [X] of their items. *)
Definition list_fields : list (Model * pystr * Model) :=
  [ (Attribute, py "options", AttributeOption);
    (OntologyClass, py "attributes", Attribute);
    (Ontology, py "classes", OntologyClass);
    (Project, py "sensors", Sensor);
    (Dataset, py "sensors", Sensor) ].

(** The fields annotated with a model. *)
Definition model_fields : list (Model * pystr * Model) :=
  [ (Project, py "ontology", Ontology);
    (Dataset, py "project", Project) ].
End SourceTables.

(** The values modelled that are no sequence for pydantic and are not
    [None]: booleans, numbers, strings, enumeration members, dictionaries
    and model instances. *)
Definition not_a_sequence (x : PyVal) : bool :=
  match x with
  | VBool _ | VInt _ | VFloat _ | VStr _ | VEnum _ _ | VDict _ | VObj _ _ =>
      true
  | VNone | VList _ => false
  end.

Definition find_field (M : Model) (k : pystr) : option ModelField :=
  find (fun f => pystr_eqb k (name f)) (fields M).

(** * Properties *)

Example scenario_project_valid :
  construct Project scenario_project_input = inl scenario_project
  /\ scenario_project <> VNone.
Proof. split; [vm_compute; reflexivity | vm_compute; discriminate]. Qed.

Example dataset7_valid :
  construct Dataset dataset7_input = inl dataset7
  /\ dict_get (py "id") (match dataset7 with VObj _ d => d | _ => [] end)
     = Some (VInt 7).
Proof. split; vm_compute; reflexivity. Qed.

(** ** [Project.create_dataset] *)

Section CreateDataset.
Variables (self : addr).
Variables (name data_source sensors type annotation_format storage_url
             data_folder : PyVal).
Variables (container_name sas_token sequential generate_metadata description
             : option PyVal).

Local Abbreviation request :=
  (request_of self name data_source sensors type annotation_format
     storage_url data_folder container_name sas_token sequential
     generate_metadata description).

Local Abbreviation call :=
  (create_dataset self name data_source sensors type annotation_format
     storage_url data_folder container_name sas_token sequential
     generate_metadata description).

(** The ways a call can go, by what [config] holds. *)
Lemma create_dataset_cases (w : World) :
  call w =
  match config w with
  | ImportRaises e => (inr (if is_Exception e then wrapped e else e), w)
  | Imported None =>
      (inr (wrapped (Exc AttributeError
              (py "module 'config' has no attribute '_client'") None None)), w)
  | Imported (Some PyNone) =>
      (inr (Exc AttributeError
              (py "'NoneType' object has no attribute 'create_dataset'")
              None None), w)
  | Imported (Some (Client method)) =>
      (match fst (method request (store w)) with
       | Returns v => inl v
       | Raises e => inr e
       end,
       {| config := config w;
          store := snd (method request (store w));
          calls := calls w ++ [request] |})
  end.
Proof.
  unfold create_dataset, bind, try_except, import_config_client,
    raise_while_handling, raise, ret, call_create_dataset, wrapped.
  cbv beta.
  destruct (config w) as [e | [[ | method] | ]] eqn:Hc; rewrite ?Hc;
    try reflexivity.
  - destruct (is_Exception e); reflexivity.
  - change (method _ (store w)) with (method request (store w)).
    destruct (method request (store w)) as [[v | e] st];
      reflexivity.
Qed.

(** The store after a call is the one the client left, or the one before
    when the client was not reached: the method itself writes nothing. *)
Lemma create_dataset_store (w : World) :
  store (snd (call w)) = store w
  \/ exists method, config w = Imported (Some (Client method))
                    /\ store (snd (call w)) = snd (method request (store w)).
Proof.
  rewrite create_dataset_cases.
  destruct (config w) as [e | [[ | method] | ]]; simpl; auto.
  right. exists method. auto.
Qed.

(** C6, as the code has it.  When [import config] or [config._client]
    raises an exception that is an [Exception], the call raises the
    ClientConnectionError "Failed to get client info: ..." made from it, with
    it as context; an exception that is no [Exception] leaves the call as it
    is.  Either way the process is left as it was: no request reached the
    client. *)
Theorem create_dataset_without_client (w : World) (e : PyExc) :
  fst (import_config_client w) = inr e ->
  (is_Exception e = true ->
   call w = (inr (wrapped e), w)
   /\ is_ClientConnectionError (wrapped e) = true
   /\ exc_context (wrapped e) = Some e)
  /\ (is_Exception e = false -> call w = (inr e, w))
  /\ calls (snd (call w)) = calls w.
Proof.
  unfold import_config_client. rewrite create_dataset_cases.
  destruct (config w) as [e0 | [c | ]]; simpl.
  - intros H. injection H as ->.
    split; [intros ->; auto | ]. split; [intros ->; reflexivity | reflexivity].
  - discriminate.
  - intros H. injection H as <-.
    split; [intros _; auto | ]. split; [discriminate | reflexivity].
Qed.

(** C5.  A call that returns, returns the very value the client's
    [create_dataset] returned for the request. *)
Theorem create_dataset_returns_client_value (w : World) (v : PyVal) :
  fst (call w) = inl v ->
  exists method,
    config w = Imported (Some (Client method))
    /\ fst (method request (store w)) = Returns v.
Proof.
  rewrite create_dataset_cases.
  destruct (config w) as [e | [[ | method] | ]]; simpl; try discriminate.
  intros H. exists method. split; [reflexivity | ].
  destruct (fst (method request (store w))); congruence.
Qed.

(** C3, as the code has it.  An exception raised by the client's
    [create_dataset] leaves the call as it is: the same exception, not
    wrapped in anything. *)
Theorem client_exception_propagates (w : World) (method : Collaborator)
  (e : PyExc) :
  config w = Imported (Some (Client method)) ->
  fst (method request (store w)) = Raises e ->
  fst (call w) = inr e.
Proof.
  intros Hc He. rewrite create_dataset_cases, Hc. simpl. rewrite He.
  reflexivity.
Qed.

(** C1, as the code has it.  [sensors] is not examined: with a client in
    place the client's [create_dataset] is invoked once, on a request that
    carries the given sensors, whatever they are, and the call ends the way
    the client's method does. *)
Theorem create_dataset_forwards_sensors (w : World) (method : Collaborator) :
  config w = Imported (Some (Client method)) ->
  exists req,
    req_sensors req = sensors
    /\ req_project req = self
    /\ calls (snd (call w)) = calls w ++ [req]
    /\ fst (call w) = match fst (method req (store w)) with
                      | Returns v => inl v
                      | Raises e => inr e
                      end.
Proof.
  intros Hc. exists request. rewrite create_dataset_cases, Hc. simpl.
  repeat split.
Qed.

(** C10.  Whatever the outcome, if the client leaves the Project object
    alone then every attribute of the Project reads after the call as it
    did before: the method itself only reads [self]. *)
Theorem create_dataset_reads_only (w : World) :
  (forall method req,
      config w = Imported (Some (Client method)) ->
      store_get self (snd (method req (store w))) = store_get self (store w)) ->
  forall k, getattr (store (snd (call w))) self k = getattr (store w) self k.
Proof.
  intros Hkeep k. unfold getattr.
  destruct (create_dataset_store w) as [Heq | [method [Hc Heq]]];
    rewrite Heq; [reflexivity | ].
  rewrite (Hkeep method request Hc). reflexivity.
Qed.
End CreateDataset.

(** *** The scenario, with test doubles for the client *)

(** No [config] module: the import fails with ModuleNotFoundError, the call
    raises ClientConnectionError and the client sees nothing. *)
Lemma scenario_without_config :
  fst (import_config_client (world_with (ImportRaises no_config_module)))
  = inr no_config_module
  /\ is_Exception no_config_module = true
  /\ (is_Exception no_config_module = true ->
      scenario_call (VList [cam0]) (world_with (ImportRaises no_config_module))
      = (inr (wrapped no_config_module),
         world_with (ImportRaises no_config_module))
      /\ is_ClientConnectionError (wrapped no_config_module) = true
      /\ exc_context (wrapped no_config_module) = Some no_config_module)
  /\ (is_Exception no_config_module = false ->
      scenario_call (VList [cam0]) (world_with (ImportRaises no_config_module))
      = (inr no_config_module, world_with (ImportRaises no_config_module)))
  /\ calls (snd (scenario_call (VList [cam0])
                   (world_with (ImportRaises no_config_module))))
     = calls (world_with (ImportRaises no_config_module)).
Proof.
  split; [reflexivity | ]. split; [reflexivity | ].
  unfold scenario_call. apply create_dataset_without_client. reflexivity.
Defined.

(** Two cases in which no client is there and the error is no
    ClientConnectionError: [config._client] bound to [None], where the lookup
    succeeds and the call on [None] fails afterwards, and a KeyboardInterrupt
    during [import config], which [except Exception] lets pass. *)
Lemma scenario_no_client_other_errors :
  (fst (scenario_call (VList [cam0]) (world_with (Imported (Some PyNone))))
   = inr (Exc AttributeError
            (py "'NoneType' object has no attribute 'create_dataset'")
            None None)
   /\ is_ClientConnectionError
        (Exc AttributeError
           (py "'NoneType' object has no attribute 'create_dataset'")
           None None) = false)
  /\ (fst (scenario_call (VList [cam0]) (world_with (ImportRaises interrupted)))
      = inr interrupted
      /\ is_ClientConnectionError interrupted = false).
Proof. repeat split. Qed.

(** [config._client] bound to [None]: the reference is obtained, and it is the
    attribute lookup on it that fails, with an AttributeError. *)
Example scenario_client_is_None :
  fst (scenario_call (VList [cam0]) (world_with (Imported (Some PyNone))))
  = inr (Exc AttributeError
           (py "'NoneType' object has no attribute 'create_dataset'")
           None None).
Proof. reflexivity. Qed.

(** The stub that returns [Dataset(id=7, status="processing", ...)]: the call
    returns exactly that value. *)
Lemma scenario_returns_dataset7 :
  fst (scenario_call (VList [cam0])
         (world_with (Imported (Some (Client (stub_returning dataset7))))))
  = inl dataset7
  /\ exists method,
      config (world_with (Imported (Some (Client (stub_returning dataset7)))))
      = Imported (Some (Client method))
      /\ fst (method (scenario_request (VList [cam0]))
                (store (world_with
                          (Imported (Some (Client (stub_returning dataset7)))))))
         = Returns dataset7.
Proof.
  split; [reflexivity | ].
  apply (create_dataset_returns_client_value 0 (VStr (py "ds1"))
           (VStr (py "sdk")) (VList [cam0]) (VStr (py "2d_bounding_box"))
           (VStr (py "coco")) (VStr (py "s3://bucket")) (VStr (py "raw/"))
           None None None None None).
  reflexivity.
Defined.

(** A client that raises TimeoutError: the caller gets the TimeoutError
    itself, which is no ClientConnectionError and carries no cause. *)
Lemma scenario_client_raises :
  fst (scenario_call (VList [cam0])
         (world_with (Imported (Some (Client (stub_raising timeout_error))))))
  = inr timeout_error
  /\ is_ClientConnectionError timeout_error = false
  /\ exc_cause timeout_error = None.
Proof. repeat split. Qed.

Lemma timeout_error_reaches_caller :
  config (world_with (Imported (Some (Client (stub_raising timeout_error)))))
  = Imported (Some (Client (stub_raising timeout_error)))
  /\ fst (scenario_call (VList [cam0])
            (world_with (Imported (Some (Client (stub_raising timeout_error))))))
     = inr timeout_error.
Proof.
  split; [reflexivity | ].
  unfold scenario_call.
  apply client_exception_propagates with (method := stub_raising timeout_error);
    reflexivity.
Defined.

(** An empty [sensors], and a sensor unknown to the project: both calls reach
    the client, which receives the list as given, and both return. *)
Lemma scenario_sensors_not_checked :
  scenario_call (VList [])
    (world_with (Imported (Some (Client (stub_returning dataset7)))))
  = (inl dataset7,
     {| config := Imported (Some (Client (stub_returning dataset7)));
        store := [(0, scenario_project)];
        calls := [scenario_request (VList [])] |})
  /\ scenario_call (VList [lidar9])
       (world_with (Imported (Some (Client (stub_returning dataset7)))))
     = (inl dataset7,
        {| config := Imported (Some (Client (stub_returning dataset7)));
           store := [(0, scenario_project)];
           calls := [scenario_request (VList [lidar9])] |}).
Proof. split; reflexivity. Qed.

Lemma scenario_sensors_forwarded :
  config (world_with (Imported (Some (Client (stub_returning dataset7)))))
  = Imported (Some (Client (stub_returning dataset7)))
  /\ exists req,
      req_sensors req = VList []
      /\ req_project req = 0
      /\ calls (snd (scenario_call (VList [])
                       (world_with
                          (Imported (Some (Client (stub_returning dataset7)))))))
         = calls (world_with
                    (Imported (Some (Client (stub_returning dataset7)))))
           ++ [req]
      /\ fst (scenario_call (VList [])
                (world_with (Imported (Some (Client (stub_returning dataset7))))))
         = match fst (stub_returning dataset7 req
                        (store (world_with
                                  (Imported (Some (Client (stub_returning dataset7)))))))
           with
           | Returns v => inl v
           | Raises e => inr e
           end.
Proof.
  split; [reflexivity | ].
  unfold scenario_call. apply create_dataset_forwards_sensors. reflexivity.
Defined.

(** With the returning stub, which touches nothing, the project reads the
    same after the call. *)
Lemma scenario_project_untouched :
  (forall method req,
      config (world_with (Imported (Some (Client (stub_returning dataset7)))))
      = Imported (Some (Client method)) ->
      store_get 0 (snd (method req
                          (store (world_with
                                    (Imported (Some (Client (stub_returning dataset7))))))))
      = store_get 0 (store (world_with
                              (Imported (Some (Client (stub_returning dataset7)))))))
  /\ forall k,
      getattr (store (snd (scenario_call (VList [cam0])
                             (world_with
                                (Imported (Some (Client (stub_returning dataset7))))))))
        0 k
      = getattr (store (world_with
                          (Imported (Some (Client (stub_returning dataset7))))))
          0 k.
Proof.
  assert (H : forall method req,
             config (world_with (Imported (Some (Client (stub_returning dataset7)))))
             = Imported (Some (Client method)) ->
             store_get 0 (snd (method req
                                 (store (world_with
                                           (Imported (Some (Client (stub_returning dataset7))))))))
             = store_get 0 (store (world_with
                                     (Imported (Some (Client (stub_returning dataset7))))))).
  { intros method req Hc. simpl in Hc. injection Hc as <-. reflexivity. }
  split; [exact H | ].
  unfold scenario_call. apply create_dataset_reads_only. exact H.
Defined.

(** The proviso on the client is needed: a client that writes to the project
    it was handed is seen by the caller. *)
Example scenario_client_renames :
  getattr (store (snd (scenario_call (VList [cam0])
                         (world_with
                            (Imported (Some (Client (stub_renaming dataset7))))))))
    0 (py "name")
  = Some (VStr (py "renamed"))
  /\ getattr (store (world_with
                       (Imported (Some (Client (stub_renaming dataset7))))))
       0 (py "name")
     = Some (VStr (py "P")).
Proof. split; vm_compute; reflexivity. Qed.

(** ** Strings and dictionaries *)

Lemma pystr_eqb_eq (a b : pystr) : pystr_eqb a b = true <-> a = b.
Proof.
  revert b. induction a as [ | x a IH]; intros [ | y b]; simpl;
    try (split; [discriminate | discriminate]); [tauto | ].
  rewrite andb_true_iff, N.eqb_eq, IH. split.
  - intros [-> ->]. reflexivity.
  - intros H. injection H as -> ->. auto.
Qed.

Lemma pystr_eqb_refl (a : pystr) : pystr_eqb a a = true.
Proof. apply pystr_eqb_eq. reflexivity. Qed.

Lemma pystr_eqb_neq (a b : pystr) : pystr_eqb a b = false <-> a <> b.
Proof.
  rewrite <- pystr_eqb_eq. destruct (pystr_eqb a b); split; congruence.
Qed.

Lemma is_member_In (E : EnumDecl) (s : pystr) :
  is_member E s = true <-> In s (enum_values E).
Proof.
  unfold is_member. rewrite existsb_exists. split.
  - intros [x [Hin Heq]]. apply pystr_eqb_eq in Heq. subst. exact Hin.
  - intros Hin. exists s. split; [exact Hin | apply pystr_eqb_refl].
Qed.

Lemma is_member_not_In (E : EnumDecl) (s : pystr) :
  ~ In s (enum_values E) -> is_member E s = false.
Proof.
  intros Hn. destruct (is_member E s) eqn:Hm; [ | reflexivity].
  apply is_member_In in Hm. contradiction.
Qed.

Lemma dict_get_set_same (k : pystr) (v : PyVal) (d : dict) :
  dict_get k (dict_set k v d) = Some v.
Proof.
  induction d as [ | [k' v'] d IH]; simpl.
  - rewrite pystr_eqb_refl. reflexivity.
  - destruct (pystr_eqb k k') eqn:Hk; simpl.
    + rewrite pystr_eqb_refl. reflexivity.
    + rewrite Hk. exact IH.
Qed.

Lemma dict_get_set_other (k k' : pystr) (v : PyVal) (d : dict) :
  k <> k' -> dict_get k (dict_set k' v d) = dict_get k d.
Proof.
  intros Hne. induction d as [ | [k0 v0] d IH]; simpl.
  - apply pystr_eqb_neq in Hne. rewrite Hne. reflexivity.
  - destruct (pystr_eqb k' k0) eqn:Hk; simpl.
    + apply pystr_eqb_eq in Hk. subst k0.
      apply pystr_eqb_neq in Hne. rewrite Hne. reflexivity.
    + rewrite IH. reflexivity.
Qed.

Lemma dict_get_In_keys (k : pystr) (d : dict) (v : PyVal) :
  dict_get k d = Some v -> In k (keys d).
Proof.
  induction d as [ | [k' v'] d IH]; simpl; [discriminate | ].
  destruct (pystr_eqb k k') eqn:Hk.
  - apply pystr_eqb_eq in Hk. auto.
  - auto.
Qed.

(** ** The validation loop *)

Lemma validate_fields_cons (f : ModelField) (fs : list ModelField)
  (input values : dict) (errors : list ErrorWrapper) :
  validate_fields (f :: fs) input values errors =
  match field_step f input values with
  | inl v => validate_fields fs input (dict_set (name f) v values) errors
  | inr es =>
      validate_fields fs input values (errors ++ under (LKey (name f)) es)
  end.
Proof.
  unfold field_step. simpl.
  destruct (dict_get (name f) input); [reflexivity | ].
  destruct (required f); reflexivity.
Qed.

(** Errors are only ever added. *)
Lemma validate_fields_errors_grow (fs : list ModelField) :
  forall input values errors,
  exists more,
    snd (validate_fields fs input values errors) = errors ++ more.
Proof.
  induction fs as [ | f fs IH]; intros input values errors.
  - exists []. simpl. rewrite app_nil_r. reflexivity.
  - rewrite validate_fields_cons.
    destruct (field_step f input values) as [v | es].
    + apply IH.
    + destruct (IH input values (errors ++ under (LKey (name f)) es))
        as [more Hmore].
      exists (under (LKey (name f)) es ++ more).
      rewrite Hmore, app_assoc. reflexivity.
Qed.

(** A field whose value is refused whatever came before it leaves its errors,
    under its name, in the result. *)
Lemma failing_field_reported (P : list ErrorWrapper -> Prop)
  (f : ModelField) (v : PyVal) (input : dict) :
  dict_get (name f) input = Some v ->
  (forall values, exists es, field_validate f values v = inr es /\ P es) ->
  forall fs values errors,
    In f fs ->
    exists es,
      P es
      /\ incl (under (LKey (name f)) es)
           (snd (validate_fields fs input values errors)).
Proof.
  intros Hget Hbad. induction fs as [ | g fs IH]; intros values errors Hin.
  - destruct Hin.
  - destruct Hin as [-> | Hin].
    + rewrite validate_fields_cons. unfold field_step. rewrite Hget.
      destruct (Hbad values) as [es [Hes HP]]. rewrite Hes.
      exists es. split; [exact HP | ].
      destruct (validate_fields_errors_grow fs input values
                  (errors ++ under (LKey (name f)) es)) as [more Hmore].
      rewrite Hmore. intros e He.
      apply in_or_app. left. apply in_or_app. right. exact He.
    + rewrite validate_fields_cons.
      destruct (field_step g input values); apply IH; exact Hin.
Qed.

Lemma validate_model_errors (M : Model) (input : dict) :
  snd (validate_model M input) = snd (validate_fields (fields M) input [] []).
Proof.
  unfold validate_model.
  destruct (validate_fields (fields M) input [] []) as [values errors].
  destruct (extra M); reflexivity.
Qed.

Lemma construct_fails (M : Model) (input : dict) (e : ErrorWrapper) :
  In e (snd (validate_fields (fields M) input [] [])) ->
  exists es, construct M input = inr es /\ In e es.
Proof.
  rewrite <- validate_model_errors. unfold construct.
  destruct (validate_model M input) as [values [ | e0 errors]]; simpl.
  - intros [].
  - intros Hin. exists (e0 :: errors). split; [reflexivity | exact Hin].
Qed.

Lemma construct_succeeds (M : Model) (input : dict) :
  snd (validate_fields (fields M) input [] []) = [] ->
  construct M input = inl (VObj (model_name M) (fst (validate_model M input))).
Proof.
  rewrite <- validate_model_errors. unfold construct.
  destruct (validate_model M input) as [values errors]; simpl.
  intros ->. reflexivity.
Qed.

(** A refused construction always says why. *)
Lemma construct_errors_nonempty (M : Model) (input : dict)
  (es : list ErrorWrapper) :
  construct M input = inr es -> es <> [].
Proof.
  unfold construct.
  destruct (validate_model M input) as [values [ | e errors]];
    [discriminate | ].
  intros H. injection H as <-. discriminate.
Qed.

(** ** Enumeration-typed fields *)

Section EnumFields.
Context {R : Runtime} {C : Common}.

Lemma enum_refuses (E : EnumDecl) (b : bool) (s : pystr) (values : dict) :
  ~ In s (enum_values E) ->
  enum_ E b values (VStr s) = inr (error_at (EnumMemberError (enum_values E))).
Proof.
  intros Hn. unfold enum_. rewrite (@is_member_not_In E s Hn). reflexivity.
Qed.

Lemma enum_field_refuses (f : ModelField) (E : EnumDecl) (b : bool)
  (s : pystr) (values : dict) :
  shape f = SHAPE_SINGLETON ->
  validators f = [enum_ E b] ->
  ~ In s (enum_values E) ->
  field_validate f values (VStr s)
  = inr (error_at (EnumMemberError (enum_values E))).
Proof.
  intros Hs Hv Hn. unfold field_validate. rewrite Hs, Hv.
  cbn [apply_validators].
  rewrite (@enum_refuses E b s values Hn). reflexivity.
Qed.

Lemma enum_field_reported (M : Model) (i : nat) (f : ModelField)
  (k : pystr) (E : EnumDecl) (b : bool) (s : pystr) (d : dict) :
  nth_error (fields M) i = Some f ->
  name f = k ->
  shape f = SHAPE_SINGLETON ->
  validators f = [enum_ E b] ->
  ~ In s (enum_values E) ->
  dict_get k d = Some (VStr s) ->
  exists es,
    construct M d = inr es
    /\ In {| loc := [LKey k]; exc := EnumMemberError (enum_values E) |} es.
Proof.
  intros Hnth <- Hs Hv Hn Hget.
  apply construct_fails.
  destruct (@failing_field_reported
              (fun es => es = error_at (EnumMemberError (enum_values E)))
              f (VStr s) d Hget) with (fs := fields M)
                                      (values := @nil (pystr * PyVal))
                                      (errors := @nil ErrorWrapper)
    as [es [-> Hincl]].
  - intros values. eexists. split; [ | reflexivity].
    apply enum_field_refuses with (b := b); assumption.
  - eapply nth_error_In. exact Hnth.
  - apply Hincl. simpl. left. reflexivity.
Qed.

(** C9.  In every enumeration-typed field of the source (Sensor.type and
    Dataset.data_source among them), a string that is not a value of the
    enumeration makes the construction fail, with an enumeration-member
    error located at that field. *)
Theorem unknown_enum_value_rejected (M : Model) (k : pystr) (E : EnumDecl)
  (s : pystr) (d : dict) :
  In (M, k, E) enum_fields ->
  ~ In s (enum_values E) ->
  dict_get k d = Some (VStr s) ->
  exists es,
    construct M d = inr es
    /\ In {| loc := [LKey k]; exc := EnumMemberError (enum_values E) |} es.
Proof.
  intros Hin Hn Hget. unfold enum_fields in Hin. simpl in Hin.
  repeat (destruct Hin as [Heq | Hin];
          [injection Heq as <- <- <- | ]); try contradiction.
  all: [> eapply (@enum_field_reported Attribute 3) with (b := true)
        | eapply (@enum_field_reported Sensor 2) with (b := true)
        | eapply (@enum_field_reported Ontology 2) with (b := true)
        | eapply (@enum_field_reported Ontology 3) with (b := true)
        | eapply (@enum_field_reported Dataset 4) with (b := false)
        | eapply (@enum_field_reported Dataset 5) with (b := false)
        | eapply (@enum_field_reported Dataset 6) with (b := false)
        | eapply (@enum_field_reported Dataset 7) with (b := false) ].
  all: first [ reflexivity | eassumption ].
Qed.
End EnumFields.

(** A Sensor of type "radar", which the scenario's SensorType does not have. *)
Lemma radar_sensor_rejected :
  In (Sensor, py "type", SensorType) enum_fields
  /\ ~ In (py "radar") (enum_values SensorType)
  /\ dict_get (py "type")
       [(py "name", VStr (py "front")); (py "type", VStr (py "radar"))]
     = Some (VStr (py "radar"))
  /\ exists es,
      construct Sensor
        [(py "name", VStr (py "front")); (py "type", VStr (py "radar"))]
      = inr es
      /\ In {| loc := [LKey (py "type")];
               exc := EnumMemberError (enum_values SensorType) |} es.
Proof.
  assert (Hin : In (Sensor, py "type", SensorType) enum_fields)
    by (right; left; reflexivity).
  assert (Hn : ~ In (py "radar") (enum_values SensorType))
    by (vm_compute; intros [H | [H | []]]; discriminate H).
  repeat split; [exact Hin | exact Hn | ].
  apply unknown_enum_value_rejected with (s := py "radar");
    [exact Hin | exact Hn | reflexivity].
Defined.

(** A Dataset whose data_source is "gcp". *)
Example gcp_data_source_rejected :
  construct Dataset
    (dict_set (py "data_source") (VStr (py "gcp")) dataset7_input)
  = inr [{| loc := [LKey (py "data_source")];
            exc := EnumMemberError [py "azure"; py "aws"; py "sdk"] |}].
Proof. vm_compute. reflexivity. Qed.

(** ** Nested models *)

Section Nested.
Context {R : Runtime} {C : Common}.

Lemma model_errors_nonempty (M : Model) (values : dict) (v : PyVal)
  (es : list ErrorWrapper) :
  model_ M values v = inr es -> es <> [].
Proof.
  unfold model_.
  destruct v as [ | b | z | f | s | c s | l | d | c d];
    try (destruct (dict_of _);
         [apply construct_errors_nonempty
         | intros H; injection H as <-; discriminate]).
  - apply construct_errors_nonempty.
  - destruct (pystr_eqb c (model_name M)); [discriminate | ].
    apply construct_errors_nonempty.
Qed.

(** An item the model refuses is refused as a list item, with at least one
    error. *)
Lemma refused_item (f : ModelField) (M : Model) (values : dict) (c : PyVal) :
  validators f = [model_ M] ->
  (forall m, model_ M [] c <> inl m) ->
  exists ee, validate_item f values c = inr ee /\ ee <> [].
Proof.
  intros Hv Hbad. unfold validate_item. rewrite Hv.
  destruct c as [ | b | z | x | s | k s | l | d | k d];
    try (cbn [apply_validators];
         match goal with
         | |- context [model_ M values ?c] =>
             destruct (model_ M values c) as [m | ee] eqn:Hm;
             [destruct (Hbad m); exact Hm
             | exists ee; split;
               [reflexivity | exact (model_errors_nonempty _ _ _ _ Hm)]]
         end).
  exists (error_at NoneIsNotAllowedError). split; [reflexivity | discriminate].
Qed.

(** The errors of a refused item are reported under its index. *)
Lemma refused_item_indexed (f : ModelField) (values : dict) (c : PyVal)
  (ee : list ErrorWrapper) :
  validate_item f values c = inr ee -> ee <> [] ->
  forall l i j,
    nth_error l j = Some c ->
    exists e rest,
      In e (snd (validate_items f values i l))
      /\ loc e = LIdx (i + j) :: rest.
Proof.
  intros Hc Hne. induction l as [ | v l IH]; intros i j Hnth.
  - destruct j; discriminate.
  - simpl. destruct (validate_items f values (S i) l) as [rs es] eqn:Hrest.
    destruct j as [ | j]; simpl in Hnth.
    + injection Hnth as ->. rewrite Hc.
      destruct ee as [ | e0 ee]; [contradiction | ].
      exists {| loc := LIdx i :: loc e0; exc := exc e0 |}, (loc e0).
      rewrite Nat.add_0_r. simpl. auto.
    + destruct (IH (S i) j Hnth) as [e [rest [Hin Hloc]]].
      rewrite Hrest in Hin. simpl in Hin.
      exists e, rest.
      replace (i + S j) with (S i + j) by lia.
      split; [ | exact Hloc].
      destruct (validate_item f values v); simpl; [exact Hin | ].
      apply in_or_app. right. exact Hin.
Qed.

Lemma refused_item_fails_list (f : ModelField) (M : Model) (values : dict)
  (cs : list PyVal) (i : nat) (c : PyVal) :
  shape f = SHAPE_LIST ->
  validators f = [model_ M] ->
  nth_error cs i = Some c ->
  (forall m, model_ M [] c <> inl m) ->
  exists es,
    field_validate f values (VList cs) = inr es
    /\ exists e rest, In e es /\ loc e = LIdx i :: rest.
Proof.
  intros Hs Hv Hnth Hbad.
  destruct (refused_item f M values c Hv Hbad) as [ee [Hee Hne]].
  destruct (refused_item_indexed f values c ee Hee Hne cs 0 i Hnth)
    as [e [rest [Hin Hloc]]].
  unfold field_validate, validate_sequence_like. rewrite Hs.
  destruct (validate_items f values 0 cs) as [rs [ | e0 es]];
    simpl in Hin; [destruct Hin | ].
  exists (e0 :: es). split; [reflexivity | ].
  exists e, rest. split; [exact Hin | exact Hloc].
Qed.

(** C8.  An Ontology whose [classes] holds, at index [i], an element that
    OntologyClass refuses is itself refused, and one of the reported errors
    is located under [classes], index [i]. *)
Theorem invalid_class_fails_Ontology (d : dict) (cs : list PyVal) (i : nat)
  (c : PyVal) :
  dict_get (py "classes") d = Some (VList cs) ->
  nth_error cs i = Some c ->
  (forall m, model_ OntologyClass [] c <> inl m) ->
  exists es e rest,
    construct Ontology d = inr es
    /\ In e es
    /\ loc e = LKey (py "classes") :: LIdx i :: rest.
Proof.
  intros Hget Hnth Hbad.
  pose (f := optional "classes" SHAPE_LIST [model_ OntologyClass]).
  destruct (@failing_field_reported
              (fun es => exists e rest, In e es /\ loc e = LIdx i :: rest)
              f (VList cs) d Hget) with (fs := fields Ontology)
                                        (values := @nil (pystr * PyVal))
                                        (errors := @nil ErrorWrapper)
    as [es [[e [rest [Hin Hloc]]] Hincl]].
  - intros values.
    apply refused_item_fails_list with (M := OntologyClass) (c := c);
      (reflexivity || assumption).
  - simpl. do 4 right. left. reflexivity.
  - pose (e' := {| loc := LKey (py "classes") :: loc e; exc := exc e |}).
    assert (He' : In e' (snd (validate_fields (fields Ontology) d [] []))).
    { apply Hincl. unfold under. apply in_map_iff. exists e. auto. }
    destruct (construct_fails Ontology d e' He') as [es' [Hc Hin']].
    exists es', e', rest. repeat split; [exact Hc | exact Hin' | ].
    simpl. rewrite Hloc. reflexivity.
Qed.
End Nested.

(** An Ontology whose second class has a colour without [#]. *)
Lemma ontology_with_bad_class_rejected :
  let bus := VDict [(py "name", VStr (py "bus"));
                    (py "color", VStr (py "FF0000")); (py "rank", VInt 2)] in
  let d := [(py "name", VStr (py "O"));
            (py "classes", VList [VDict car_input; bus])] in
  dict_get (py "classes") d = Some (VList [VDict car_input; bus])
  /\ nth_error [VDict car_input; bus] 1 = Some bus
  /\ (forall m, model_ OntologyClass [] bus <> inl m)
  /\ exists es e rest,
      construct Ontology d = inr es
      /\ In e es
      /\ loc e = LKey (py "classes") :: LIdx 1 :: rest.
Proof.
  intros bus d.
  assert (Hbad : forall m, model_ OntologyClass [] bus <> inl m)
    by (intros m H; vm_compute in H; discriminate H).
  repeat split; [exact Hbad | ].
  apply (invalid_class_fails_Ontology d [VDict car_input; bus] 1 bus);
    [reflexivity | reflexivity | exact Hbad].
Defined.

Example ontology_with_bad_class_errors :
  construct Ontology
    [(py "name", VStr (py "O"));
     (py "classes",
       VList [VDict car_input;
              VDict [(py "name", VStr (py "bus"));
                     (py "color", VStr (py "FF0000")); (py "rank", VInt 2)]])]
  = inr [{| loc := [LKey (py "classes"); LIdx 1; LKey (py "color")];
            exc := ValueError
                     (py "Color field needs starts with `#` and has 6 digits behind it, get : FF0000") |}].
Proof. vm_compute. reflexivity. Qed.

(** ** Attribute: options and the OPTION type *)

Lemma options_absent_or_empty_dec (d : dict) :
  options_absent_or_empty d \/ ~ options_absent_or_empty d.
Proof.
  unfold options_absent_or_empty.
  destruct (dict_get (py "options") d) as [[ | | | | | | [ | y l] | | ] | ];
    auto; right; intros [H | [H | H]]; discriminate H.
Qed.

Lemma construct_succeeds_iff (M : Model) (input : dict) :
  succeeds (construct M input)
  <-> snd (validate_fields (fields M) input [] []) = [].
Proof.
  rewrite <- validate_model_errors. unfold succeeds, construct.
  destruct (validate_model M input) as [values [ | e errors]]; simpl.
  - split; [reflexivity | eexists; reflexivity].
  - split; [intros [m H]; discriminate H | discriminate].
Qed.

Lemma construct_fails_iff (M : Model) (input : dict) :
  fails (construct M input)
  <-> snd (validate_fields (fields M) input [] []) <> [].
Proof.
  rewrite <- validate_model_errors. unfold fails, construct.
  destruct (validate_model M input) as [values [ | e errors]]; simpl.
  - split; [intros [es H]; discriminate H | intros H; destruct H; reflexivity].
  - split; [discriminate | eexists; reflexivity].
Qed.

Section AttributeOptions.
Context {R : Runtime} {C : Common}.

Lemma under_nil_inv (l : LocItem) (es : list ErrorWrapper) :
  under l es = [] -> es = [].
Proof. destruct es; [reflexivity | discriminate]. Qed.

Lemma item_errors_nonempty (f : ModelField) (M : Model) (values : dict)
  (v : PyVal) (ee : list ErrorWrapper) :
  validators f = [model_ M] ->
  validate_item f values v = inr ee -> ee <> [].
Proof.
  intros Hv. unfold validate_item. rewrite Hv.
  destruct v as [ | b | z | x | s | k s | l | d | k d];
    try (cbn [apply_validators];
         match goal with
         | |- context [model_ M values ?c] =>
             destruct (model_ M values c) as [m | e0] eqn:Hm;
             [discriminate
             | intros H; injection H as <-;
               exact (model_errors_nonempty _ _ _ _ Hm)]
         end).
  intros H. injection H as <-. discriminate.
Qed.

(** When no item is refused, every item is kept. *)
Lemma validate_items_all_kept (f : ModelField) (M : Model) (values : dict) :
  validators f = [model_ M] ->
  forall l i rs,
    validate_items f values i l = (rs, []) -> length rs = length l.
Proof.
  intros Hv. induction l as [ | v l IH]; intros i rs; simpl.
  - intros H. injection H as <-. reflexivity.
  - destruct (validate_items f values (S i) l) as [rs' es'] eqn:Hrest.
    destruct (validate_item f values v) as [r | ee] eqn:Hitem.
    + intros H. injection H as <- ->. simpl. f_equal.
      apply (IH (S i)). exact Hrest.
    + intros H. injection H as _ Hnil.
      apply app_eq_nil in Hnil. destruct Hnil as [Hnil _].
      apply under_nil_inv in Hnil.
      destruct (item_errors_nonempty f M values v ee Hv Hitem Hnil).
Qed.

(** What [values] holds for an accepted [options]: falsy exactly when the
    input left it out or gave [None] or the empty list. *)
Lemma options_step (d values : dict) (v : PyVal) :
  field_step Attribute_options d values = inl v ->
  (truthy v = false <-> options_absent_or_empty d).
Proof.
  unfold field_step, options_absent_or_empty.
  change (name Attribute_options) with (py "options").
  destruct (dict_get (py "options") d) as [x | ].
  - destruct x as [ | b | z | x | s | k s | l | d' | k d'];
      try (intros H; discriminate H).
    + intros H. injection H as <-. simpl. tauto.
    + unfold field_validate, validate_sequence_like.
      cbn [shape Attribute_options optional post_validators apply_validators].
      destruct (validate_items Attribute_options values 0 l) as [rs [ | e es]] eqn:Hl;
        [ | discriminate].
      intros H. injection H as <-.
      apply (validate_items_all_kept Attribute_options AttributeOption values
               eq_refl) in Hl.
      destruct rs as [ | r rs], l as [ | y l]; simpl in Hl; try discriminate.
      * simpl. tauto.
      * simpl. split; [discriminate | ].
        intros [H | [H | H]]; discriminate H.
  - intros H. injection H as <-. simpl. tauto.
Qed.

(** The [type] field on a recognised value: the class validator decides. *)
Lemma type_step (d values : dict) (v : PyVal) (t : pystr) :
  dict_get (py "type") d = Some v ->
  denotes v t ->
  is_member AttributeType t = true ->
  field_step Attribute_type d values =
  match option_data_validator (VStr t) values with
  | inl r => inl r
  | inr msg => inr (error_at (ValueError msg))
  end.
Proof.
  intros Hget Hv Hm. unfold field_step.
  change (name Attribute_type) with (py "type"). rewrite Hget.
  destruct Hv as [-> | [c ->]]; unfold field_validate; simpl; rewrite Hm;
    unfold class_validator;
    destruct (option_data_validator (VStr t) values); reflexivity.
Qed.

Lemma Attribute_errors (d : dict) (v : PyVal) (t : pystr) :
  (forall f, In f (fields Attribute) -> name f <> py "type" -> field_ok f d) ->
  dict_get (py "type") d = Some v ->
  denotes v t ->
  is_member AttributeType t = true ->
  (snd (validate_fields (fields Attribute) d [] []) = []
   <-> ~ (t = AttributeType_OPTION /\ options_absent_or_empty d)).
Proof.
  intros Hok Hget Hv Hm.
  assert (Hid : field_ok (optional "id" SHAPE_SINGLETON [int_]) d)
    by (apply Hok; [simpl; auto | vm_compute; discriminate]).
  assert (Hname : field_ok (annotated "name" SHAPE_SINGLETON [str_]) d)
    by (apply Hok; [simpl; auto | vm_compute; discriminate]).
  assert (Hopt : field_ok Attribute_options d)
    by (apply Hok; [simpl; auto | vm_compute; discriminate]).
  change (fields Attribute)
    with [optional "id" SHAPE_SINGLETON [int_];
          annotated "name" SHAPE_SINGLETON [str_]; Attribute_options; Attribute_type].
  rewrite validate_fields_cons.
  destruct (Hid []) as [v1 ->].
  rewrite validate_fields_cons.
  match goal with
  | |- context [field_step _ d ?vals] => destruct (Hname vals) as [v2 ->]
  end.
  rewrite validate_fields_cons.
  match goal with
  | |- context [field_step Attribute_options d ?vals] =>
      destruct (Hopt vals) as [v3 H3]; rewrite H3;
      apply options_step in H3
  end.
  rewrite validate_fields_cons.
  rewrite (type_step d _ v t Hget Hv Hm).
  unfold option_data_validator, values_get.
  change (name Attribute_options) with (py "options").
  rewrite dict_get_set_same.
  cbn [eq_member].
  destruct (pystr_eqb t AttributeType_OPTION) eqn:Ht.
  - apply pystr_eqb_eq in Ht.
    destruct (truthy v3) eqn:Htruthy; simpl.
    + split; [ | reflexivity].
      intros _ [_ Habs]. apply H3 in Habs. discriminate Habs.
    + split; [discriminate | ].
      intros Hn. destruct Hn. split; [exact Ht | ].
      apply H3. reflexivity.
  - apply pystr_eqb_neq in Ht. simpl.
    split; [ | reflexivity]. intros _ [Heq _]. contradiction.
Qed.

(** C4.  For an Attribute input whose other fields are acceptable and whose
    [type] is a recognised value [t]: when [t] is OPTION the construction
    fails exactly when [options] is left out, [None] or empty; for any other
    [t] it succeeds, whatever [options] is. *)
Theorem Attribute_options_required_iff_OPTION (d : dict) (v : PyVal)
  (t : pystr) :
  (forall f, In f (fields Attribute) -> name f <> py "type" -> field_ok f d) ->
  dict_get (py "type") d = Some v ->
  denotes v t ->
  is_member AttributeType t = true ->
  (t = AttributeType_OPTION ->
   (fails (construct Attribute d) <-> options_absent_or_empty d))
  /\ (t <> AttributeType_OPTION -> succeeds (construct Attribute d)).
Proof.
  intros Hok Hget Hv Hm.
  pose proof (Attribute_errors d v t Hok Hget Hv Hm) as Herr.
  split.
  - intros Ht. rewrite construct_fails_iff. split.
    + intros Hne.
      destruct (options_absent_or_empty_dec d) as [Habs | Hpresent];
        [exact Habs | ].
      destruct Hne. apply Herr. intros [_ Habs]. contradiction.
    + intros Habs Hnil. apply Herr in Hnil. apply Hnil. split; assumption.
  - intros Ht. apply construct_succeeds_iff. apply Herr.
    intros [Heq _]. contradiction.
Qed.
End AttributeOptions.

(** An option attribute with one option, in the scenario's enumerations. *)
Lemma option_attribute_with_options :
  let d := [(py "name", VStr (py "colour"));
            (py "options", VList [VDict [(py "value", VStr (py "red"))]]);
            (py "type", VStr (py "option"))] in
  (forall f, In f (fields Attribute) -> name f <> py "type" -> field_ok f d)
  /\ dict_get (py "type") d = Some (VStr (py "option"))
  /\ denotes (VStr (py "option")) (py "option")
  /\ is_member AttributeType (py "option") = true
  /\ (py "option" = AttributeType_OPTION ->
      (fails (construct Attribute d) <-> options_absent_or_empty d))
  /\ (py "option" <> AttributeType_OPTION -> succeeds (construct Attribute d)).
Proof.
  intros d.
  assert (Hok : forall f, In f (fields Attribute) -> name f <> py "type" ->
                          field_ok f d).
  { intros f Hin Hne. simpl in Hin.
    destruct Hin as [<- | [<- | [<- | [<- | []]]]]; intros values;
      try (eexists; vm_compute; reflexivity).
    destruct Hne. reflexivity. }
  assert (Hden : denotes (VStr (py "option")) (py "option"))
    by (left; reflexivity).
  split; [exact Hok | ]. split; [reflexivity | ]. split; [exact Hden | ].
  split; [reflexivity | ].
  apply (Attribute_options_required_iff_OPTION d (VStr (py "option"))
           (py "option") Hok eq_refl Hden eq_refl).
Defined.

Example option_attribute_without_options :
  construct Attribute
    [(py "name", VStr (py "colour")); (py "type", VStr (py "option"))]
  = inr [{| loc := [LKey (py "type")];
            exc := ValueError
                     (py "Need to assign value for `options` if the Attribute type is option") |}]
  /\ construct Attribute
       [(py "name", VStr (py "colour")); (py "options", VList []);
        (py "type", VStr (py "option"))]
     = inr [{| loc := [LKey (py "type")];
               exc := ValueError
                        (py "Need to assign value for `options` if the Attribute type is option") |}]
  /\ succeeds (construct Attribute
                 [(py "name", VStr (py "note")); (py "type", VStr (py "text"))]).
Proof.
  repeat split; try (vm_compute; reflexivity).
  eexists. vm_compute. reflexivity.
Qed.

(** ** Open schemas *)

Lemma get_value_plain : forall v, plain v = true -> get_value v = v.
Proof.
  fix IH 1. intros v.
  destruct v as [ | b | z | x | s | k s | l | d | k d]; simpl;
    try reflexivity; try discriminate.
  - intros H. f_equal. induction l as [ | a l IHl]; [reflexivity | ].
    simpl in H. apply andb_true_iff in H. destruct H as [Ha Hl].
    simpl. rewrite (IH a Ha), (IHl Hl). reflexivity.
  - intros H. f_equal. induction d as [ | [k a] d IHd]; [reflexivity | ].
    simpl in H. apply andb_true_iff in H. destruct H as [Ha Hd].
    simpl. rewrite (IH a Ha), (IHd Hd). reflexivity.
Qed.

Lemma dict_get_converted (k : pystr) (d : dict) :
  dict_get k (map (fun kv => (fst kv, get_value (snd kv))) d)
  = option_map get_value (dict_get k d).
Proof.
  induction d as [ | [k' v] d IH]; simpl; [reflexivity | ].
  destruct (pystr_eqb k k'); [reflexivity | exact IH].
Qed.

Lemma is_field_name (M : Model) (f : ModelField) :
  In f (fields M) -> is_field M (name f) = true.
Proof.
  intros Hin. unfold is_field. apply existsb_exists.
  exists f. split; [exact Hin | apply pystr_eqb_refl].
Qed.

Lemma dict_get_known_part (M : Model) (k : pystr) (d : dict) :
  is_field M k = true -> dict_get k (known_part M d) = dict_get k d.
Proof.
  intros Hk. unfold known_part.
  induction d as [ | [k' v] d IH]; simpl; [reflexivity | ].
  destruct (is_field M k') eqn:Hk'; simpl.
  - rewrite IH. reflexivity.
  - destruct (pystr_eqb k k') eqn:Heq; [ | exact IH].
    apply pystr_eqb_eq in Heq. subst k'. congruence.
Qed.

(** The field loop reads the input at the field names only. *)
Lemma validate_fields_known_part (M : Model) (d : dict) :
  forall fs values errors,
    (forall f, In f fs -> In f (fields M)) ->
    validate_fields fs (known_part M d) values errors
    = validate_fields fs d values errors.
Proof.
  induction fs as [ | f fs IH]; intros values errors Hsub; [reflexivity | ].
  rewrite !validate_fields_cons. unfold field_step.
  rewrite (dict_get_known_part M (name f) d)
    by (apply is_field_name; apply Hsub; left; reflexivity).
  destruct (match dict_get (name f) d with
            | Some v => field_validate f values v
            | None => if required f then inr (error_at MissingError)
                      else inl (default f)
            end); apply IH; intros g Hg; apply Hsub; right; exact Hg.
Qed.

(** A key that names no field keeps the value the input gives it. *)
Lemma keep_extra_keeps (M : Model) (d : dict) (k : pystr) (v : PyVal) :
  is_field M k = false ->
  dict_get k d = Some v ->
  forall values, dict_get k (keep_extra M d values) = Some v.
Proof.
  intros Hk Hget values. unfold keep_extra.
  assert (Hin : In k (keys d)) by (eapply dict_get_In_keys; exact Hget).
  assert (Hstay : forall ks vals,
             dict_get k vals = Some v ->
             dict_get k
               (fold_left
                  (fun vals k0 =>
                     if is_field M k0 then vals
                     else match dict_get k0 d with
                          | Some v0 => dict_set k0 v0 vals
                          | None => vals
                          end) ks vals) = Some v).
  { induction ks as [ | k0 ks IHks]; intros vals Hv; [exact Hv | ].
    simpl. apply IHks.
    destruct (is_field M k0); [exact Hv | ].
    destruct (dict_get k0 d) as [v0 | ] eqn:Hk0; [ | exact Hv].
    destruct (pystr_eqb k k0) eqn:Heq.
    - apply pystr_eqb_eq in Heq. subst k0.
      rewrite dict_get_set_same. congruence.
    - apply pystr_eqb_neq in Heq. rewrite dict_get_set_other by exact Heq.
      exact Hv. }
  revert values. induction (keys d) as [ | k0 ks IHks]; intros values.
  - destruct Hin.
  - simpl. destruct Hin as [-> | Hin].
    + apply Hstay. rewrite Hk, Hget. apply dict_get_set_same.
    + apply IHks. exact Hin.
Qed.

Lemma open_schema_round_trip (M : Model) (d : dict) :
  extra M = allow ->
  succeeds (construct M (known_part M d)) ->
  exists m out,
    construct M d = inl m
    /\ model_dict m = Some out
    /\ forall k v,
        is_field M k = false -> dict_get k d = Some v -> plain v = true ->
        dict_get k out = Some v.
Proof.
  intros Hallow Hknown.
  apply construct_succeeds_iff in Hknown.
  rewrite validate_fields_known_part in Hknown by auto.
  exists (VObj (model_name M) (fst (validate_model M d))).
  eexists. split; [apply construct_succeeds; exact Hknown | ].
  split; [reflexivity | ].
  intros k v Hk Hget Hplain.
  rewrite dict_get_converted. unfold validate_model.
  destruct (validate_fields (fields M) d [] []) as [values errors].
  rewrite Hallow. simpl.
  rewrite (keep_extra_keeps M d k v Hk Hget values). simpl.
  rewrite (get_value_plain v Hplain). reflexivity.
Qed.

Section OpenSchemas.
Context {R : Runtime} {C : Common}.

(** C7.  For Dataset and for DataConfig: if the declared fields of a
    mapping are acceptable, the mapping is accepted whatever other keys it
    has, and [dict()] of the instance gives every such key back with the
    value the mapping had (plain data, so that [dict()] has nothing to
    convert in it). *)
Theorem unknown_keys_kept (M : Model) (d : dict) :
  M = Dataset \/ M = DataConfig ->
  succeeds (construct M (known_part M d)) ->
  exists m out,
    construct M d = inl m
    /\ model_dict m = Some out
    /\ forall k v,
        is_field M k = false -> dict_get k d = Some v -> plain v = true ->
        dict_get k out = Some v.
Proof.
  intros [-> | ->]; apply open_schema_round_trip; reflexivity.
Qed.
End OpenSchemas.

(** The scenario's Dataset input with two keys the model does not declare. *)
Lemma dataset_with_unknown_keys :
  let d := dataset7_input
           ++ [(py "region", VStr (py "eu"));
               (py "tags", VList [VStr (py "a"); VInt 2])] in
  (Dataset = Dataset \/ Dataset = DataConfig)
  /\ succeeds (construct Dataset (known_part Dataset d))
  /\ exists m out,
      construct Dataset d = inl m
      /\ model_dict m = Some out
      /\ forall k v,
          is_field Dataset k = false -> dict_get k d = Some v ->
          plain v = true -> dict_get k out = Some v.
Proof.
  intros d.
  assert (Hknown : succeeds (construct Dataset (known_part Dataset d)))
    by (eexists; vm_compute; reflexivity).
  split; [left; reflexivity | ]. split; [exact Hknown | ].
  apply (unknown_keys_kept Dataset d); [left; reflexivity | exact Hknown].
Defined.

Example dataconfig_with_unknown_key :
  let d := [(py "storage_url", VStr (py "s3://bucket"));
            (py "data_folder", VStr (py "raw/"));
            (py "sequential", VBool false);
            (py "generate_metadata", VBool true);
            (py "type", VStr (py "2d_bounding_box"));
            (py "annotation_format", VStr (py "coco"));
            (py "retries", VInt 3)] in
  option_map (dict_get (py "retries"))
    (model_dict (or_none (construct DataConfig d)))
  = Some (Some (VInt 3))
  /\ option_map (dict_get (py "retries"))
       (model_dict (or_none (construct Sensor (cam0_input ++ [(py "retries", VInt 3)]))))
     = Some None.
Proof. split; vm_compute; reflexivity. Qed.

(** ** The colour check *)

Section Color.
Context {R : Runtime} {C : Common}.

Lemma class_alnum_bound (c : N) : class_alnum c = true -> (48 <= c <= 122)%N.
Proof.
  unfold class_alnum, in_range.
  rewrite !orb_true_iff, !andb_true_iff, !N.leb_le. lia.
Qed.

Lemma class_alnum_word (c : N) : class_alnum c = true -> is_word c = true.
Proof.
  intros H. unfold is_word. rewrite H.
  apply class_alnum_bound in H.
  destruct (N.ltb_spec c 128); [reflexivity | lia].
Qed.

Lemma class_alnum_not_hash (c : N) : class_alnum c = true -> N.eqb c 35 = false.
Proof.
  intros H. apply class_alnum_bound in H. apply N.eqb_neq. lia.
Qed.

(** Every string of the form [#] plus six alphanumerics passes. *)
Lemma color_pattern_accepted (s : pystr) :
  color_pattern s = true -> color_validator s = inl s.
Proof.
  destruct s as [ | c six]; [discriminate | ].
  unfold color_pattern. rewrite !andb_true_iff.
  intros [[Hc Hlen] Hall]. apply N.eqb_eq in Hc. subst c.
  apply Nat.eqb_eq in Hlen.
  destruct six as [ | a1 [ | a2 [ | a3 [ | a4 [ | a5 [ | a6 [ | a7 six]]]]]]];
    try discriminate Hlen.
  simpl in Hall. rewrite !andb_true_iff in Hall.
  destruct Hall as [H1 [H2 [H3 [H4 [H5 [H6 _]]]]]].
  unfold color_validator.
  cbn [startswith_hash lstrip_hash N.eqb Pos.eqb negb orb].
  rewrite (class_alnum_not_hash a1 H1).
  unfold re_search. cbn [search_from]. unfold match_here, boundary.
  cbn [hd_error nth_error length Nat.leb firstn forallb word_at xorb].
  rewrite (class_alnum_word a1 H1), (class_alnum_word a6 H6).
  rewrite H1, H2, H3, H4, H5, H6. reflexivity.
Qed.

(** Nothing passes without a leading [#]. *)
Lemma color_accepted_starts_with_hash (s r : pystr) :
  color_validator s = inl r -> startswith_hash s = true /\ r = s.
Proof.
  unfold color_validator. destruct (startswith_hash s); simpl.
  - destruct (negb (re_search (lstrip_hash s))); [discriminate | ].
    intros H. injection H as <-. auto.
  - discriminate.
Qed.

(** The three examples of the specification; the message of a refusal ends
    with the refused value. *)
Example color_examples :
  color_validator (py "#AABBCC") = inl (py "#AABBCC")
  /\ color_validator (py "AABBCC")
     = inr (py "Color field needs starts with `#` and has 6 digits behind it, get : "
            ++ py "AABBCC")
  /\ color_validator (py "#ABC")
     = inr (py "Color field needs starts with `#` and has 6 digits behind it, get : "
            ++ py "#ABC").
Proof. repeat split. Qed.

Lemma class_constructed (color : string) :
  color_validator (py color) = inl (py color) ->
  construct OntologyClass (class_input color) = inl (class_instance color).
Proof.
  intros Hc. unfold construct, validate_model, class_input, class_instance.
  simpl. unfold str_, int_, scalar, str_each.
  rewrite !str_validator_str. simpl.
  rewrite Hc, int_validator_int. reflexivity.
Qed.

(** C2.  The check lets through strings that [^#[0-9A-Za-z]{6}$] does not
    match: [lstrip] removes every leading [#], and [re.search] with [\b]
    finds the six characters anywhere in what is left.  An OntologyClass
    with colour [##AABBCC], and one with colour [#AABBCC-01], are
    constructed. *)
Theorem color_check_accepts_beyond_pattern :
  (color_pattern (py "##AABBCC") = false
   /\ construct OntologyClass (class_input "##AABBCC")
      = inl (class_instance "##AABBCC"))
  /\ (color_pattern (py "#AABBCC-01") = false
      /\ construct OntologyClass (class_input "#AABBCC-01")
         = inl (class_instance "#AABBCC-01")).
Proof.
  split; (split; [reflexivity | apply class_constructed; reflexivity]).
Qed.

(** The colours the pattern matches are all accepted. *)
Lemma pattern_colors_constructed (color : string) :
  color_pattern (py color) = true ->
  construct OntologyClass (class_input color) = inl (class_instance color).
Proof.
  intros H. apply class_constructed. apply color_pattern_accepted. exact H.
Qed.
End Color.

(** * Further properties *)

(** ** The colour check, in full *)

Section ColorCheck.
Context {R : Runtime}.

Lemma before_last (prev : option N) (pre : pystr) (c : N) :
  before prev (pre ++ [c]) = Some c.
Proof.
  unfold before. rewrite fold_left_app. reflexivity.
Qed.

Lemma six_alnum_cases (mid : pystr) :
  six_alnum mid ->
  exists a1 a2 a3 a4 a5 a6,
    mid = [a1; a2; a3; a4; a5; a6]
    /\ class_alnum a1 = true /\ class_alnum a2 = true
    /\ class_alnum a3 = true /\ class_alnum a4 = true
    /\ class_alnum a5 = true /\ class_alnum a6 = true.
Proof.
  intros [Hlen Hall].
  destruct mid as [ | a1 [ | a2 [ | a3 [ | a4 [ | a5 [ | a6 [ | a7 mid]]]]]]];
    try discriminate Hlen.
  simpl in Hall. rewrite !andb_true_iff in Hall.
  destruct Hall as [H1 [H2 [H3 [H4 [H5 [H6 _]]]]]].
  exists a1, a2, a3, a4, a5, a6. repeat split; assumption.
Qed.

(** The pattern matches at a position exactly when six alphanumerics start
    there, with no word character just before or just after them. *)
Lemma match_here_iff (prev : option N) (s : pystr) :
  match_here prev s = true
  <-> exists mid post,
        s = mid ++ post /\ six_alnum mid
        /\ word_at prev = false /\ word_at (hd_error post) = false.
Proof.
  split.
  - unfold match_here. rewrite !andb_true_iff.
    intros [[[Hb1 Hlen] Hall] Hb2].
    destruct s as [ | a1 [ | a2 [ | a3 [ | a4 [ | a5 [ | a6 post]]]]]];
      try discriminate Hlen.
    exists [a1; a2; a3; a4; a5; a6], post.
    cbn [firstn forallb] in Hall. rewrite !andb_true_iff in Hall.
    destruct Hall as [H1 [H2 [H3 [H4 [H5 [H6 _]]]]]].
    split; [reflexivity | ]. split.
    + split; [reflexivity | ]. simpl.
      rewrite H1, H2, H3, H4, H5, H6. reflexivity.
    + unfold boundary in Hb1, Hb2. cbn [hd_error nth_error word_at] in Hb1.
      rewrite (class_alnum_word a1 H1) in Hb1.
      split.
      * destruct (word_at prev); [discriminate Hb1 | reflexivity].
      * destruct post as [ | p post]; [reflexivity | ].
        cbn [hd_error nth_error word_at] in Hb2 |- *.
        rewrite (class_alnum_word a6 H6) in Hb2.
        destruct (is_word p); [discriminate Hb2 | reflexivity].
  - intros [mid [post [-> [Hsix [Hprev Hpost]]]]].
    destruct (six_alnum_cases mid Hsix)
      as [a1 [a2 [a3 [a4 [a5 [a6 [-> [H1 [H2 [H3 [H4 [H5 H6]]]]]]]]]]]].
    unfold match_here, boundary.
    cbn [app hd_error firstn forallb length Nat.leb word_at].
    change (nth_error (a1 :: a2 :: a3 :: a4 :: a5 :: a6 :: post) 5)
      with (Some a6).
    replace (nth_error (a1 :: a2 :: a3 :: a4 :: a5 :: a6 :: post) 6)
      with (hd_error post) by (destruct post; reflexivity).
    cbn [word_at].
    rewrite (class_alnum_word a1 H1), (class_alnum_word a6 H6).
    rewrite Hprev, Hpost, H1, H2, H3, H4, H5, H6. reflexivity.
Qed.

(** [re.search] succeeds exactly when the string holds six alphanumerics that
    no word character touches on either side. *)
Lemma search_from_iff (s : pystr) :
  forall prev,
    search_from prev s = true
    <-> exists pre mid post,
          s = pre ++ mid ++ post /\ six_alnum mid
          /\ word_at (before prev pre) = false
          /\ word_at (hd_error post) = false.
Proof.
  induction s as [ | c s IH]; intros prev.
  - cbn [search_from]. rewrite orb_false_r, match_here_iff. split.
    + intros [mid [post [Heq [Hsix [Hp Hq]]]]].
      exists [], mid, post. auto.
    + intros [pre [mid [post [Heq [Hsix [Hp Hq]]]]]].
      destruct pre; [ | discriminate Heq].
      exists mid, post. auto.
  - cbn [search_from]. rewrite orb_true_iff, match_here_iff, IH. split.
    + intros [[mid [post [Heq [Hsix [Hp Hq]]]]]
             | [pre [mid [post [Heq [Hsix [Hp Hq]]]]]]].
      * exists [], mid, post. auto.
      * exists (c :: pre), mid, post. rewrite Heq. auto.
    + intros [pre [mid [post [Heq [Hsix [Hp Hq]]]]]].
      destruct pre as [ | c' pre].
      * left. exists mid, post. auto.
      * right. injection Heq as <- ->. exists pre, mid, post. auto.
Qed.

Lemma lstrip_hash_hashes (n : nat) (rest : pystr) :
  startswith_hash rest = false ->
  lstrip_hash (hashes n ++ rest) = rest.
Proof.
  intros Hrest. induction n as [ | n IH]; simpl.
  - destruct rest as [ | c rest]; [reflexivity | ].
    simpl in Hrest. simpl. rewrite Hrest. reflexivity.
  - exact IH.
Qed.

Lemma lstrip_hash_split (s : pystr) :
  exists n,
    s = hashes n ++ lstrip_hash s
    /\ startswith_hash (lstrip_hash s) = false.
Proof.
  induction s as [ | c s [n [Heq Hno]]].
  - exists 0. split; reflexivity.
  - simpl. destruct (N.eqb c 35) eqn:Hc.
    + apply N.eqb_eq in Hc. subst c.
      exists (S n). split; [simpl; f_equal; exact Heq | exact Hno].
    + exists 0. split; [reflexivity | simpl; exact Hc].
Qed.

(** X1.  The colours that are accepted are exactly these: one or more [#],
    then any text that does not begin with [#] and that holds six characters
    of [[a-zA-Z0-9]] with no word character right before or right after them.
    The accepted value is returned as it is. *)
Theorem color_accepted_iff (s : pystr) :
  color_validator s = inl s
  <-> exists n pre mid post,
        s = hashes (S n) ++ pre ++ mid ++ post
        /\ startswith_hash (pre ++ mid ++ post) = false
        /\ six_alnum mid
        /\ word_at (before None pre) = false
        /\ word_at (hd_error post) = false.
Proof.
  unfold color_validator. split.
  - destruct (startswith_hash s) eqn:Hstart; [ | discriminate].
    destruct (re_search (lstrip_hash s)) eqn:Hsearch; [ | discriminate].
    intros _. unfold re_search in Hsearch.
    apply search_from_iff in Hsearch.
    destruct Hsearch as [pre [mid [post [Heq [Hsix [Hp Hq]]]]]].
    destruct (lstrip_hash_split s) as [n [Hs Hno]].
    destruct n as [ | n].
    + simpl in Hs. rewrite <- Hs in Hno. congruence.
    + exists n, pre, mid, post. rewrite <- Heq. auto.
  - intros [n [pre [mid [post [-> [Hno [Hsix [Hp Hq]]]]]]]].
    cbn [hashes repeat app startswith_hash N.eqb Pos.eqb negb orb].
    change (35%N :: repeat 35%N n ++ pre ++ mid ++ post)
      with (hashes (S n) ++ pre ++ mid ++ post).
    rewrite (lstrip_hash_hashes (S n) _ Hno).
    assert (Hsearch : re_search (pre ++ mid ++ post) = true).
    { unfold re_search. apply search_from_iff.
      exists pre, mid, post. auto. }
    rewrite Hsearch. reflexivity.
Qed.

Lemma search_from_short (s : pystr) :
  forall prev, List.length s < 6 -> search_from prev s = false.
Proof.
  intros prev Hlen.
  destruct (search_from prev s) eqn:Hs; [ | reflexivity].
  apply search_from_iff in Hs.
  destruct Hs as [pre [mid [post [-> [[Hmid _] _]]]]].
  rewrite !length_app in Hlen. lia.
Qed.

Lemma lstrip_hash_length (s : pystr) :
  List.length (lstrip_hash s) <= List.length s.
Proof.
  induction s as [ | c s IH]; simpl; [lia | ].
  destruct (N.eqb c 35); simpl; lia.
Qed.

(** X2.  No colour shorter than seven characters is accepted: the check
    refuses it, and the message ends with the refused value. *)
Theorem short_color_refused (s : pystr) :
  List.length s < 7 ->
  color_validator s
  = inr (py "Color field needs starts with `#` and has 6 digits behind it, get : "
         ++ s).
Proof.
  intros Hlen. unfold color_validator.
  destruct s as [ | c s]; [reflexivity | ].
  cbn [startswith_hash lstrip_hash].
  destruct (N.eqb c 35); [ | reflexivity].
  unfold re_search. rewrite search_from_short; [reflexivity | ].
  pose proof (lstrip_hash_length s). simpl in Hlen. lia.
Qed.
End ColorCheck.

(** ** Validators always give a reason *)

Create HintDb honest.

Section Honest.
Context {R : Runtime} {C : Common}.

Lemma honest_scalar (A : Type) (f : PyVal -> option A) (inj : A -> PyVal)
  (e : ErrKind) : honest (scalar f inj e).
Proof.
  intros values v es. unfold scalar. destruct (f v); [discriminate | ].
  intros H. injection H as <-. discriminate.
Qed.

Lemma honest_int : honest int_.
Proof. apply honest_scalar. Qed.

Lemma honest_float : honest float_.
Proof. apply honest_scalar. Qed.

Lemma honest_str : honest str_.
Proof. apply honest_scalar. Qed.

Lemma honest_bool : honest bool_.
Proof. apply honest_scalar. Qed.

Lemma honest_enum (E : EnumDecl) (b : bool) : honest (enum_ E b).
Proof.
  intros values v es. unfold enum_.
  destruct v as [ | x | z | x | s | k s | l | d | k d];
    try (intros H; injection H as <-; discriminate);
    (destruct (is_member E s); [discriminate | ]);
    intros H; injection H as <-; discriminate.
Qed.

Lemma honest_model (M : Model) : honest (model_ M).
Proof. intros values v es. apply model_errors_nonempty. Qed.

Lemma honest_class_validator (f : PyVal -> dict -> PyVal + pystr) :
  honest (class_validator f).
Proof.
  intros values v es. unfold class_validator.
  destruct (f v values); [discriminate | ].
  intros H. injection H as <-. discriminate.
Qed.

Lemma honest_str_each (f : pystr -> pystr + pystr) : honest (str_each f).
Proof.
  intros values v es. unfold str_each.
  destruct (str_validator v) as [s | ].
  - destruct (f s); [discriminate | ].
    intros H. injection H as <-. discriminate.
  - intros H. injection H as <-. discriminate.
Qed.

Lemma honest_union (val : Validator) (vs : list Validator) :
  honest val -> honest (union_ (val :: vs)).
Proof.
  intros Hval values v es. cbn [union_].
  destruct (val values v) as [r | es0] eqn:H0; [discriminate | ].
  destruct (union_ vs values v); [discriminate | ].
  intros H. injection H as <-.
  apply Hval in H0. destruct es0; [contradiction | discriminate].
Qed.
End Honest.

#[local] Hint Resolve honest_int honest_float honest_str honest_bool
  honest_enum honest_model honest_class_validator honest_str_each
  honest_union : honest.

Lemma honest_apply (vs : list Validator) :
  Forall honest vs ->
  forall values v es, apply_validators vs values v = inr es -> es <> [].
Proof.
  induction 1 as [ | val vs Hval Hvs IH]; intros values v es; simpl.
  - discriminate.
  - destruct (val values v) as [v' | es0] eqn:H0.
    + apply IH.
    + intros H. injection H as <-. exact (Hval _ _ _ H0).
Qed.

Lemma honest_field_validate (f : ModelField) :
  honest_field f ->
  forall values v es, field_validate f values v = inr es -> es <> [].
Proof.
  intros [Hv Hp] values v es. unfold field_validate.
  assert (Hseq : forall x es0,
             validate_sequence_like f values x = inr es0 -> es0 <> []).
  { intros x es0. unfold validate_sequence_like.
    destruct x; try (intros H; injection H as <-; discriminate).
    destruct (validate_items f values 0 l) as [rs [ | e0 es1]];
      [discriminate | ].
    intros H. injection H as <-. discriminate. }
  assert (Hmain : forall x es0,
             match
               match shape f with
               | SHAPE_SINGLETON => apply_validators (validators f) values x
               | SHAPE_LIST => validate_sequence_like f values x
               end
             with
             | inl v' => apply_validators (post_validators f) values v'
             | inr es1 => inr es1
             end = inr es0 -> es0 <> []).
  { intros x es0.
    destruct (shape f).
    - destruct (apply_validators (validators f) values x) as [v' | es1] eqn:H1.
      + apply (honest_apply _ Hp).
      + intros H. injection H as <-. exact (honest_apply _ Hv _ _ _ H1).
    - destruct (validate_sequence_like f values x) as [v' | es1] eqn:H1.
      + apply (honest_apply _ Hp).
      + intros H. injection H as <-. exact (Hseq _ _ H1). }
  destruct v; try apply Hmain.
  destruct (allow_none f).
  - apply (honest_apply _ Hp).
  - intros H. injection H as <-. discriminate.
Qed.

Lemma honest_field_step (f : ModelField) :
  honest_field f ->
  forall d values es, field_step f d values = inr es -> es <> [].
Proof.
  intros Hf d values es. unfold field_step.
  destruct (dict_get (name f) d).
  - apply honest_field_validate. exact Hf.
  - destruct (required f); [ | discriminate].
    intros H. injection H as <-. discriminate.
Qed.

Section SourceFields.
Context {R : Runtime} {C : Common}.

(** Every field of every model of the file gives its reasons. *)
Lemma models_honest (M : Model) (f : ModelField) :
  In M models -> In f (fields M) -> honest_field f.
Proof.
  intros HM Hf. unfold models in HM. simpl in HM.
  repeat (destruct HM as [<- | HM]; [ | ]); try contradiction;
    cbv [fields AttributeOption Attribute Sensor OntologyClass Ontology
           DataConfig Project Dataset In] in Hf;
    repeat (destruct Hf as [<- | Hf]; [ | ]); try contradiction;
    (split;
     cbv [validators post_validators annotated optional defaulted
            with_validator app];
     repeat constructor; auto with honest).
Qed.
End SourceFields.

(** ** What the field loop leaves behind *)

Lemma nodupb_NoDup (l : list pystr) : nodupb l = true -> NoDup l.
Proof.
  induction l as [ | k l IH]; simpl; [constructor | ].
  rewrite andb_true_iff, negb_true_iff. intros [Hk Hl].
  constructor; [ | exact (IH Hl)].
  intros Hin.
  assert (Hex : existsb (pystr_eqb k) l = true).
  { apply existsb_exists. exists k. split; [exact Hin | apply pystr_eqb_refl]. }
  congruence.
Qed.

Lemma find_field_In (M : Model) (k : pystr) (f : ModelField) :
  find_field M k = Some f -> In f (fields M) /\ name f = k.
Proof.
  unfold find_field. intros H. apply find_some in H.
  destruct H as [Hin Heq]. apply pystr_eqb_eq in Heq. auto.
Qed.

Lemma keys_dict_set_new (k : pystr) (v : PyVal) (d : dict) :
  ~ In k (keys d) -> keys (dict_set k v d) = keys d ++ [k].
Proof.
  induction d as [ | [k' v'] d IH]; simpl; [reflexivity | ].
  intros Hn. destruct (pystr_eqb k k') eqn:Hk.
  - apply pystr_eqb_eq in Hk. destruct Hn. auto.
  - simpl. rewrite IH; [reflexivity | ]. intros Hin. apply Hn. auto.
Qed.

(** A field whose step is refused whatever came before it leaves its errors,
    under its name, in the result. *)
Lemma failing_step_reported (P : list ErrorWrapper -> Prop)
  (f : ModelField) (input : dict) :
  (forall values, exists es, field_step f input values = inr es /\ P es) ->
  forall fs values errors,
    In f fs ->
    exists es,
      P es
      /\ incl (under (LKey (name f)) es)
           (snd (validate_fields fs input values errors)).
Proof.
  intros Hbad. induction fs as [ | g fs IH]; intros values errors Hin.
  - destruct Hin.
  - destruct Hin as [-> | Hin].
    + rewrite validate_fields_cons.
      destruct (Hbad values) as [es [Hes HP]]. rewrite Hes.
      exists es. split; [exact HP | ].
      destruct (validate_fields_errors_grow fs input values
                  (errors ++ under (LKey (name f)) es)) as [more Hmore].
      rewrite Hmore. intros e He.
      apply in_or_app. left. apply in_or_app. right. exact He.
    + rewrite validate_fields_cons.
      destruct (field_step g input values); apply IH; exact Hin.
Qed.

Lemma step_error_reported (M : Model) (k : pystr) (f : ModelField)
  (d : dict) (e : ErrKind) :
  find_field M k = Some f ->
  (forall values, field_step f d values = inr (error_at e)) ->
  exists es,
    construct M d = inr es /\ In {| loc := [LKey k]; exc := e |} es.
Proof.
  intros Hfind Hstep. apply find_field_In in Hfind.
  destruct Hfind as [Hin <-].
  apply construct_fails.
  destruct (failing_step_reported (fun es => es = error_at e) f d)
    with (fs := fields M) (values := @nil (pystr * PyVal))
         (errors := @nil ErrorWrapper) as [es [-> Hincl]].
  - intros values. exists (error_at e). split; [apply Hstep | reflexivity].
  - exact Hin.
  - apply Hincl. simpl. left. reflexivity.
Qed.

Lemma missing_reported (M : Model) (k : pystr) (f : ModelField) (d : dict) :
  find_field M k = Some f ->
  required f = true ->
  dict_get k d = None ->
  exists es,
    construct M d = inr es /\ In {| loc := [LKey k]; exc := MissingError |} es.
Proof.
  intros Hfind Hreq Hget. apply (step_error_reported M k f d _ Hfind).
  intros values. unfold field_step.
  apply find_field_In in Hfind. destruct Hfind as [_ ->].
  rewrite Hget, Hreq. reflexivity.
Qed.

Lemma none_reported (M : Model) (k : pystr) (f : ModelField) (d : dict) :
  find_field M k = Some f ->
  allow_none f = false ->
  dict_get k d = Some VNone ->
  exists es,
    construct M d = inr es
    /\ In {| loc := [LKey k]; exc := NoneIsNotAllowedError |} es.
Proof.
  intros Hfind Hnone Hget. apply (step_error_reported M k f d _ Hfind).
  intros values. unfold field_step, field_validate.
  apply find_field_In in Hfind. destruct Hfind as [_ ->].
  rewrite Hget, Hnone. reflexivity.
Qed.

Section RequiredFields.
Context {R : Runtime} {C : Common}.

(** X3.  In every model, leaving out a field that is annotated with a bare
    type (no [Optional], no default) fails the construction, with a
    "field required" error located at that field. *)
Theorem missing_required_field (M : Model) (ks : list pystr) (k : pystr)
  (d : dict) :
  In (M, ks) required_fields ->
  In k ks ->
  dict_get k d = None ->
  exists es,
    construct M d = inr es /\ In {| loc := [LKey k]; exc := MissingError |} es.
Proof.
  intros HM Hk Hget. unfold required_fields in HM. simpl in HM.
  repeat (destruct HM as [HM | HM];
          [injection HM as <- <-; simpl in Hk;
           repeat (destruct Hk as [<- | Hk];
                   [eapply missing_reported;
                    [reflexivity | reflexivity | exact Hget] | ]);
           contradiction | ]).
  contradiction.
Qed.

(** X4.  [None] is refused, with "none is not an allowed value" at the field,
    in every field whose annotation is not [Optional]: the required fields
    and also the two defaulted flags of Dataset. *)
Theorem none_in_plain_field (M : Model) (ks : list pystr) (k : pystr)
  (d : dict) :
  In (M, ks) (required_fields ++ defaulted_fields) ->
  In k ks ->
  dict_get k d = Some VNone ->
  exists es,
    construct M d = inr es
    /\ In {| loc := [LKey k]; exc := NoneIsNotAllowedError |} es.
Proof.
  intros HM Hk Hget. unfold required_fields, defaulted_fields in HM.
  simpl in HM.
  repeat (destruct HM as [HM | HM];
          [injection HM as <- <-; simpl in Hk;
           repeat (destruct Hk as [<- | Hk];
                   [eapply none_reported;
                    [reflexivity | reflexivity | exact Hget] | ]);
           contradiction | ]).
  contradiction.
Qed.
End RequiredFields.

(** A Sensor without a name. *)
Lemma sensor_without_name :
  In (Sensor, [py "name"; py "type"]) required_fields
  /\ In (py "name") [py "name"; py "type"]
  /\ dict_get (py "name") [(py "type", VStr (py "camera"))] = None
  /\ exists es,
      construct Sensor [(py "type", VStr (py "camera"))] = inr es
      /\ In {| loc := [LKey (py "name")]; exc := MissingError |} es.
Proof.
  assert (HM : In (Sensor, [py "name"; py "type"]) required_fields)
    by (right; right; left; reflexivity).
  assert (Hk : In (py "name") [py "name"; py "type"]) by (left; reflexivity).
  split; [exact HM | ]. split; [exact Hk | ]. split; [reflexivity | ].
  exact (missing_required_field Sensor _ (py "name")
           [(py "type", VStr (py "camera"))] HM Hk eq_refl).
Defined.

(** The scenario's Dataset with [sequential=None]. *)
Lemma dataset_with_sequential_None :
  let d := dataset7_input ++ [(py "sequential", VNone)] in
  In (Dataset, [py "sequential"; py "generate_metadata"])
    (required_fields ++ defaulted_fields)
  /\ In (py "sequential") [py "sequential"; py "generate_metadata"]
  /\ dict_get (py "sequential") d = Some VNone
  /\ exists es,
      construct Dataset d = inr es
      /\ In {| loc := [LKey (py "sequential")];
               exc := NoneIsNotAllowedError |} es.
Proof.
  intros d.
  assert (HM : In (Dataset, [py "sequential"; py "generate_metadata"])
                 (required_fields ++ defaulted_fields))
    by (apply in_or_app; right; left; reflexivity).
  assert (Hk : In (py "sequential") [py "sequential"; py "generate_metadata"])
    by (left; reflexivity).
  split; [exact HM | ]. split; [exact Hk | ]. split; [reflexivity | ].
  exact (none_in_plain_field Dataset _ (py "sequential") d HM Hk eq_refl).
Defined.

Lemma validate_fields_ok_cons (f : ModelField) (fs : list ModelField)
  (d values vals : dict) :
  honest_field f ->
  validate_fields (f :: fs) d values [] = (vals, []) ->
  exists v,
    field_step f d values = inl v
    /\ validate_fields fs d (dict_set (name f) v values) [] = (vals, []).
Proof.
  intros Hf. rewrite validate_fields_cons.
  destruct (field_step f d values) as [v | es] eqn:Hstep.
  - intros H. exists v. auto.
  - intros H. exfalso.
    destruct (validate_fields_errors_grow fs d values
                ([] ++ under (LKey (name f)) es)) as [more Hmore].
    rewrite H in Hmore. simpl in Hmore.
    destruct es as [ | e es]; [ | discriminate Hmore].
    exact (honest_field_step f Hf d values [] Hstep eq_refl).
Qed.

(** The fields that validate are stored under their names, in order. *)
Lemma validate_fields_keys (d : dict) :
  forall fs values vals,
    (forall f, In f fs -> honest_field f) ->
    NoDup (keys values ++ map name fs) ->
    validate_fields fs d values [] = (vals, []) ->
    keys vals = keys values ++ map name fs.
Proof.
  induction fs as [ | f fs IH]; intros values vals Hh Hnd Hrun.
  - simpl in Hrun. injection Hrun as <-. simpl. rewrite app_nil_r.
    reflexivity.
  - destruct (validate_fields_ok_cons f fs d values vals
                (Hh f (or_introl eq_refl)) Hrun) as [v [Hstep Hrest]].
    assert (Hnew : ~ In (name f) (keys values)).
    { intros Hin. apply NoDup_remove_2 in Hnd. apply Hnd.
      apply in_or_app. left. exact Hin. }
    rewrite (IH _ _ (fun g Hg => Hh g (or_intror Hg))) with (2 := Hrest).
    + rewrite keys_dict_set_new by exact Hnew.
      rewrite <- app_assoc. reflexivity.
    + rewrite keys_dict_set_new by exact Hnew.
      rewrite <- app_assoc. exact Hnd.
Qed.

(** Later fields leave the other keys alone. *)
Lemma validate_fields_untouched (d : dict) (k : pystr) :
  forall fs values errors,
    (forall g, In g fs -> name g <> k) ->
    dict_get k (fst (validate_fields fs d values errors)) = dict_get k values.
Proof.
  induction fs as [ | f fs IH]; intros values errors Hne; [reflexivity | ].
  rewrite validate_fields_cons.
  destruct (field_step f d values) as [v | es].
  - rewrite IH by (intros g Hg; apply Hne; right; exact Hg).
    apply dict_get_set_other. intros Heq. symmetry in Heq.
    exact (Hne f (or_introl eq_refl) Heq).
  - apply IH. intros g Hg. apply Hne. right. exact Hg.
Qed.

(** In an accepted input, each field holds what its own step gave. *)
Lemma validated_value (d : dict) (f : ModelField) :
  forall fs values vals,
    (forall g, In g fs -> honest_field g) ->
    NoDup (map name fs) ->
    validate_fields fs d values [] = (vals, []) ->
    In f fs ->
    exists values' v,
      field_step f d values' = inl v /\ dict_get (name f) vals = Some v.
Proof.
  induction fs as [ | g fs IH]; intros values vals Hh Hnd Hrun Hin.
  - destruct Hin.
  - destruct (validate_fields_ok_cons g fs d values vals
                (Hh g (or_introl eq_refl)) Hrun) as [v [Hstep Hrest]].
    simpl in Hnd. apply NoDup_cons_iff in Hnd. destruct Hnd as [Hnew Hnd].
    destruct Hin as [-> | Hin].
    + exists values, v. split; [exact Hstep | ].
      replace vals
        with (fst (validate_fields fs d (dict_set (name f) v values) []))
        by (rewrite Hrest; reflexivity).
      rewrite validate_fields_untouched.
      * apply dict_get_set_same.
      * intros h Hh' Heq. apply Hnew. rewrite <- Heq.
        apply in_map. exact Hh'.
    + apply (IH _ _ (fun h Hh' => Hh h (or_intror Hh')) Hnd Hrest Hin).
Qed.

Lemma construct_inl_inv (M : Model) (d : dict) (m : PyVal) :
  construct M d = inl m ->
  exists values,
    validate_fields (fields M) d [] [] = (values, [])
    /\ m = VObj (model_name M)
             match extra M with
             | ignore => values
             | allow => keep_extra M d values
             end.
Proof.
  unfold construct, validate_model.
  destruct (validate_fields (fields M) d [] []) as [values errors].
  destruct (extra M); (destruct errors; [ | discriminate]);
    intros H; injection H as <-; exists values; auto.
Qed.

(** The extra keys never replace a field. *)
Lemma keep_extra_field (M : Model) (d : dict) (k : pystr) :
  is_field M k = true ->
  forall values, dict_get k (keep_extra M d values) = dict_get k values.
Proof.
  intros Hk. unfold keep_extra.
  induction (keys d) as [ | k0 ks IH]; intros values; [reflexivity | ].
  simpl. rewrite IH.
  destruct (is_field M k0) eqn:Hk0; [reflexivity | ].
  destruct (dict_get k0 d); [ | reflexivity].
  apply dict_get_set_other. intros Heq. congruence.
Qed.

Section Instances.
Context {R : Runtime} {C : Common}.

Lemma models_nodup (M : Model) :
  In M models -> NoDup (map name (fields M)).
Proof.
  intros HM. apply nodupb_NoDup. unfold models in HM. simpl in HM.
  repeat (destruct HM as [<- | HM]; [reflexivity | ]). contradiction.
Qed.

Lemma closed_models_are_models (M : Model) :
  In M closed_models -> In M models /\ extra M = ignore.
Proof.
  unfold closed_models, models. simpl.
  intros H. repeat (destruct H as [<- | H]; [split; [tauto | reflexivity] | ]).
  contradiction.
Qed.

(** X5.  An instance of a model without [Config.extra] holds exactly the
    declared fields, in declaration order: the fields the input left out are
    there, and no key of the input that is not a field is. *)
Theorem closed_model_holds_declared_fields (M : Model) (d : dict) (m : PyVal) :
  In M closed_models ->
  construct M d = inl m ->
  exists values,
    m = VObj (model_name M) values /\ keys values = map name (fields M).
Proof.
  intros HM Hc. apply closed_models_are_models in HM.
  destruct HM as [HM Hextra].
  apply construct_inl_inv in Hc. destruct Hc as [values [Hrun ->]].
  rewrite Hextra. exists values. split; [reflexivity | ].
  apply (validate_fields_keys d (fields M) [] values).
  - intros f Hf. exact (models_honest M f HM Hf).
  - simpl. exact (models_nodup M HM).
  - exact Hrun.
Qed.

(** X6.  A model without [Config.extra] does not see the keys that are not
    its fields: the outcome, instance or errors, is that of the input with
    those keys removed. *)
Theorem closed_model_ignores_unknown_keys (M : Model) (d : dict) :
  In M closed_models ->
  construct M d = construct M (known_part M d).
Proof.
  intros HM. apply closed_models_are_models in HM. destruct HM as [_ Hextra].
  unfold construct, validate_model.
  rewrite validate_fields_known_part by auto.
  rewrite Hextra. reflexivity.
Qed.

(** X7.  In an instance of any model, a field the input left out holds its
    declared default: [None] for the [Optional] fields, [False] for
    [sequential] and [generate_metadata] of Dataset. *)
Theorem omitted_field_takes_default (M : Model) (d : dict) (c : pystr)
  (values : dict) (k : pystr) (v : PyVal) :
  In M models ->
  construct M d = inl (VObj c values) ->
  In (k, v) (field_defaults M) ->
  dict_get k d = None ->
  dict_get k values = Some v.
Proof.
  intros HM Hc Hkv Hget.
  unfold field_defaults in Hkv. apply in_map_iff in Hkv.
  destruct Hkv as [f [Heq Hf]]. injection Heq as <- <-.
  apply filter_In in Hf. destruct Hf as [Hf Hreq].
  apply negb_true_iff in Hreq.
  apply construct_inl_inv in Hc. destruct Hc as [vals [Hrun Hm]].
  injection Hm as _ ->.
  destruct (validated_value d f (fields M) [] vals
              (fun g Hg => models_honest M g HM Hg) (models_nodup M HM)
              Hrun Hf)
    as [values' [v [Hstep Hval]]].
  unfold field_step in Hstep. rewrite Hget, Hreq in Hstep.
  injection Hstep as <-.
  destruct (extra M); [exact Hval | ].
  rewrite keep_extra_field; [exact Hval | ].
  apply is_field_name. exact Hf.
Qed.
End Instances.

Example dataset_defaults :
  field_defaults Dataset
  = [(py "id", VNone); (py "sequential", VBool false);
     (py "generate_metadata", VBool false); (py "description", VNone);
     (py "file_count", VNone); (py "image_count", VNone);
     (py "pcd_count", VNone); (py "created_by", VNone);
     (py "container_name", VNone); (py "storage_url", VNone)].
Proof. reflexivity. Qed.

(** The scenario's sensor, given with a key Sensor does not declare. *)
Lemma sensor_holds_id_name_type :
  let d := cam0_input ++ [(py "vendor", VStr (py "acme"))] in
  In Sensor closed_models
  /\ construct Sensor d = inl cam0
  /\ exists values,
      cam0 = VObj (model_name Sensor) values
      /\ keys values = map name (fields Sensor).
Proof.
  intros d.
  assert (HM : In Sensor closed_models) by (right; right; left; reflexivity).
  assert (Hc : construct Sensor d = inl cam0) by (vm_compute; reflexivity).
  split; [exact HM | ]. split; [exact Hc | ].
  exact (closed_model_holds_declared_fields Sensor d cam0 HM Hc).
Defined.

Lemma sensor_ignores_vendor :
  In Sensor closed_models
  /\ construct Sensor (cam0_input ++ [(py "vendor", VStr (py "acme"))])
     = construct Sensor
         (known_part Sensor (cam0_input ++ [(py "vendor", VStr (py "acme"))])).
Proof.
  assert (HM : In Sensor closed_models) by (right; right; left; reflexivity).
  split; [exact HM | ].
  exact (closed_model_ignores_unknown_keys Sensor _ HM).
Defined.

(** The scenario's Dataset, which gives no [sequential]. *)
Lemma dataset7_sequential_False :
  In Dataset models
  /\ In (py "sequential", VBool false) (field_defaults Dataset)
  /\ dict_get (py "sequential") dataset7_input = None
  /\ exists c values,
      construct Dataset dataset7_input = inl (VObj c values)
      /\ dict_get (py "sequential") values = Some (VBool false).
Proof.
  assert (HM : In Dataset models) by (do 7 right; left; reflexivity).
  assert (Hd : In (py "sequential", VBool false) (field_defaults Dataset))
    by (right; left; reflexivity).
  split; [exact HM | ]. split; [exact Hd | ]. split; [reflexivity | ].
  destruct (construct Dataset dataset7_input) as [[ | | | | | | | | c values] | es]
    eqn:Hc; try (vm_compute in Hc; discriminate Hc).
  exists c, values. split; [reflexivity | ].
  exact (omitted_field_takes_default Dataset dataset7_input c values
           (py "sequential") (VBool false) HM Hc Hd eq_refl).
Defined.

(** ** What an instance is known to hold *)

Section Invariants.
Context {R : Runtime} {C : Common}.

Lemma field_value (M : Model) (k : pystr) (f : ModelField) (d : dict)
  (c : pystr) (values : dict) :
  In M models ->
  find_field M k = Some f ->
  construct M d = inl (VObj c values) ->
  exists values' v,
    field_step f d values' = inl v /\ dict_get k values = Some v.
Proof.
  intros HM Hfind Hc. apply find_field_In in Hfind.
  destruct Hfind as [Hf <-].
  apply construct_inl_inv in Hc. destruct Hc as [vals [Hrun Hm]].
  injection Hm as _ ->.
  destruct (validated_value d f (fields M) [] vals
              (fun g Hg => models_honest M g HM Hg) (models_nodup M HM)
              Hrun Hf)
    as [values' [v [Hstep Hval]]].
  exists values', v. split; [exact Hstep | ].
  destruct (extra M); [exact Hval | ].
  rewrite keep_extra_field; [exact Hval | ].
  apply is_field_name. exact Hf.
Qed.

(** X8.  Every OntologyClass instance has a colour that is a string and that
    the colour check accepts. *)
Theorem OntologyClass_color_checked (d : dict) (c : pystr) (values : dict) :
  construct OntologyClass d = inl (VObj c values) ->
  exists s,
    dict_get (py "color") values = Some (VStr s)
    /\ color_validator s = inl s.
Proof.
  intros Hc.
  destruct (field_value OntologyClass (py "color")
              (annotated "color" SHAPE_SINGLETON [str_each color_validator])
              d c values)
    as [values' [v [Hstep Hval]]];
    [do 3 right; left; reflexivity | reflexivity | exact Hc | ].
  unfold field_step in Hstep.
  change (name (annotated "color" SHAPE_SINGLETON [str_each color_validator]))
    with (py "color") in Hstep.
  destruct (dict_get (py "color") d) as [x | ]; [ | discriminate Hstep].
  assert (Hx : exists s, v = VStr s /\ color_validator s = inl s).
  { unfold field_validate in Hstep.
    cbn [allow_none shape validators post_validators annotated
           apply_validators] in Hstep.
    assert (Hchain : forall y v',
               str_each color_validator values' y = inl v' ->
               exists s, v' = VStr s /\ color_validator s = inl s).
    { intros y v'. unfold str_each.
      destruct (str_validator y) as [s | ]; [ | discriminate].
      destruct (color_validator s) as [r | msg] eqn:Hcol; [ | discriminate].
      intros H. injection H as <-.
      destruct (color_accepted_starts_with_hash s r Hcol) as [_ ->].
      exists s. auto. }
    destruct x; try discriminate Hstep;
      match type of Hstep with
      | context [str_each color_validator values' ?y] =>
          destruct (str_each color_validator values' y) as [v' | es] eqn:Ht;
          [ | discriminate Hstep];
          injection Hstep as <-; exact (Hchain y v' Ht)
      end. }
  destruct Hx as [s [-> Hs]]. exists s. auto.
Qed.
End Invariants.

Section AttributeInstances.
Context {R : Runtime} {C : Common}.

(** An accepted [type] of Attribute is stored as the plain string, and the
    class validator let it through. *)
Lemma type_step_inv (d values : dict) (v : PyVal) :
  field_step Attribute_type d values = inl v ->
  exists t,
    v = VStr t
    /\ is_member AttributeType t = true
    /\ option_data_validator (VStr t) values = inl (VStr t).
Proof.
  unfold field_step. change (name Attribute_type) with (py "type").
  destruct (dict_get (py "type") d) as [x | ]; [ | discriminate].
  unfold field_validate.
  cbn [allow_none shape validators post_validators Attribute_type
         with_validator annotated app apply_validators].
  assert (Hpost : forall t,
             match class_validator option_data_validator values (VStr t) with
             | inl v' => inl v'
             | inr es => inr es
             end = inl v ->
             v = VStr t /\ option_data_validator (VStr t) values = inl (VStr t)).
  { intros t. unfold class_validator, option_data_validator.
    destruct (eq_member (VStr t) AttributeType_OPTION
              && negb (truthy (values_get (py "options") values)));
      [discriminate | ].
    intros H. injection H as <-. auto. }
  destruct x as [ | b | z | x | s | k s | l | d' | k d'];
    try discriminate;
    unfold enum_; destruct (is_member AttributeType s) eqn:Hm;
    try discriminate;
    intros H; apply Hpost in H; destruct H as [-> H];
    exists s; auto.
Qed.

Lemma options_step_shape (d values : dict) (v : PyVal) :
  field_step Attribute_options d values = inl v ->
  v = VNone \/ exists rs, v = VList rs.
Proof.
  unfold field_step. change (name Attribute_options) with (py "options").
  destruct (dict_get (py "options") d) as [x | ].
  - unfold field_validate, validate_sequence_like.
    cbn [allow_none shape validators post_validators Attribute_options
           optional apply_validators].
    destruct x as [ | b | z | x | s | k s | l | d' | k d'];
      try discriminate.
    + intros H. injection H as <-. auto.
    + destruct (validate_items Attribute_options values 0 l)
        as [rs [ | e es]]; [ | discriminate].
      intros H. injection H as <-. right. exists rs. reflexivity.
  - intros H. injection H as <-. auto.
Qed.

Lemma Attribute_fields_honest (f : ModelField) :
  In f (fields Attribute) -> honest_field f.
Proof.
  apply models_honest. right. left. reflexivity.
Qed.

(** The four steps behind an Attribute instance. *)
Lemma Attribute_inv (d : dict) (c : pystr) (values : dict) :
  construct Attribute d = inl (VObj c values) ->
  exists v1 v2 v3 v4,
    values = [(py "id", v1); (py "name", v2); (py "options", v3);
              (py "type", v4)]
    /\ field_step Attribute_options d [(py "id", v1); (py "name", v2)]
       = inl v3
    /\ field_step Attribute_type d
         [(py "id", v1); (py "name", v2); (py "options", v3)]
       = inl v4.
Proof.
  intros Hc. apply construct_inl_inv in Hc.
  destruct Hc as [vals [Hrun Hm]]. injection Hm as _ ->.
  change (fields Attribute)
    with [optional "id" SHAPE_SINGLETON [int_];
          annotated "name" SHAPE_SINGLETON [str_];
          Attribute_options; Attribute_type] in Hrun.
  apply validate_fields_ok_cons in Hrun;
    [ | apply Attribute_fields_honest; simpl; auto].
  destruct Hrun as [v1 [_ Hrun]].
  apply validate_fields_ok_cons in Hrun;
    [ | apply Attribute_fields_honest; simpl; auto].
  destruct Hrun as [v2 [_ Hrun]].
  apply validate_fields_ok_cons in Hrun;
    [ | apply Attribute_fields_honest; simpl; auto].
  destruct Hrun as [v3 [H3 Hrun]].
  apply validate_fields_ok_cons in Hrun;
    [ | apply Attribute_fields_honest; simpl; auto 6].
  destruct Hrun as [v4 [H4 Hrun]].
  simpl in Hrun. injection Hrun as <-.
  exists v1, v2, v3, v4. auto.
Qed.

(** X9.  Every Attribute instance whose type is OPTION has a list of at least
    one option. *)
Theorem Attribute_OPTION_has_options (d : dict) (c : pystr) (values : dict) :
  construct Attribute d = inl (VObj c values) ->
  dict_get (py "type") values = Some (VStr AttributeType_OPTION) ->
  exists o os, dict_get (py "options") values = Some (VList (o :: os)).
Proof.
  intros Hc Htype.
  destruct (Attribute_inv d c values Hc)
    as [v1 [v2 [v3 [v4 [-> [H3 H4]]]]]].
  simpl in Htype. injection Htype as ->.
  apply type_step_inv in H4. destruct H4 as [t [Ht [_ Hval]]].
  injection Ht as <-.
  unfold option_data_validator in Hval. simpl in Hval.
  rewrite pystr_eqb_refl in Hval.
  apply options_step_shape in H3.
  destruct H3 as [-> | [[ | o os] ->]]; try discriminate Hval.
  exists o, os. reflexivity.
Qed.
End AttributeInstances.

(** The option attribute of the scenario's enumerations. *)
Lemma colour_attribute_has_options :
  let d := [(py "name", VStr (py "colour"));
            (py "options", VList [VDict [(py "value", VStr (py "red"))]]);
            (py "type", VStr (py "option"))] in
  exists c values,
    construct Attribute d = inl (VObj c values)
    /\ dict_get (py "type") values = Some (VStr AttributeType_OPTION)
    /\ exists o os, dict_get (py "options") values = Some (VList (o :: os)).
Proof.
  intros d.
  destruct (construct Attribute d) as [[ | | | | | | | | c values] | es] eqn:Hc;
    try (vm_compute in Hc; discriminate Hc).
  assert (Ht : dict_get (py "type") values = Some (VStr AttributeType_OPTION))
    by (vm_compute in Hc; injection Hc as _ <-; reflexivity).
  exists c, values. split; [reflexivity | ]. split; [exact Ht | ].
  exact (Attribute_OPTION_has_options d c values Hc Ht).
Defined.

(** The scenario's class. *)
Lemma car_color_checked :
  exists c values,
    construct OntologyClass car_input = inl (VObj c values)
    /\ exists s,
        dict_get (py "color") values = Some (VStr s)
        /\ color_validator s = inl s.
Proof.
  destruct (construct OntologyClass car_input)
    as [[ | | | | | | | | c values] | es] eqn:Hc;
    try (vm_compute in Hc; discriminate Hc).
  exists c, values. split; [reflexivity | ].
  exact (OntologyClass_color_checked car_input c values Hc).
Defined.

(** ** Enumeration values in instances *)

Section EnumInstances.
Context {R : Runtime} {C : Common}.

Lemma enum_step_inv (f : ModelField) (E : EnumDecl) (b : bool)
  (d values : dict) (v : PyVal) :
  shape f = SHAPE_SINGLETON ->
  validators f = [enum_ E b] ->
  post_validators f = [] ->
  default f = VNone ->
  allow_none f = negb (required f) ->
  field_step f d values = inl v ->
  (v = VNone /\ required f = false)
  \/ exists t,
       In t (enum_values E)
       /\ v = if b then VStr t else VEnum (enum_name E) t.
Proof.
  intros Hs Hv Hp Hd Hn. unfold field_step.
  destruct (dict_get (name f) d) as [x | ].
  - unfold field_validate. rewrite Hs, Hv, Hp, Hn.
    cbn [apply_validators]. unfold enum_.
    destruct x as [ | y | z | y | s | k s | l | d' | k d'];
      try discriminate;
      try (destruct (required f); [discriminate | ];
           intros H; injection H as <-; auto);
      (destruct (is_member E s) eqn:Hm; [ | discriminate]);
      intros H; injection H as <-; right; exists s;
      (split; [apply is_member_In; exact Hm | reflexivity]).
  - destruct (required f); [discriminate | ].
    intros H. injection H as <-. auto.
Qed.

Lemma enum_field_value (M : Model) (k : pystr) (f : ModelField)
  (E : EnumDecl) (b : bool) (d : dict) (c : pystr) (values : dict) :
  In M models ->
  find_field M k = Some f ->
  shape f = SHAPE_SINGLETON ->
  validators f = [enum_ E b] ->
  post_validators f = [] ->
  default f = VNone ->
  allow_none f = negb (required f) ->
  construct M d = inl (VObj c values) ->
  exists v,
    dict_get k values = Some v
    /\ ((v = VNone /\ required f = false)
        \/ exists t,
             In t (enum_values E)
             /\ v = if b then VStr t else VEnum (enum_name E) t).
Proof.
  intros HM Hfind Hs Hv Hp Hd Hn Hc.
  destruct (field_value M k f d c values HM Hfind Hc)
    as [values' [v [Hstep Hval]]].
  exists v. split; [exact Hval | ].
  exact (enum_step_inv f E b d values' v Hs Hv Hp Hd Hn Hstep).
Qed.

(** X10.  An enumeration-typed field of an instance holds a value of its
    enumeration: as the plain string in the models that set
    [use_enum_values], as the member in Dataset, which does not.  Only the two
    optional fields of Ontology can hold [None] instead. *)
Theorem enum_field_holds_value (M : Model) (k : pystr) (E : EnumDecl)
  (d : dict) (c : pystr) (values : dict) :
  In (M, k, E) enum_fields ->
  construct M d = inl (VObj c values) ->
  exists v,
    dict_get k values = Some v
    /\ ((v = VNone /\ M = Ontology)
        \/ exists t,
             In t (enum_values E)
             /\ v = if pystr_eqb (model_name M) (py "Dataset")
                    then VEnum (enum_name E) t
                    else VStr t).
Proof.
  intros Hin Hc. unfold enum_fields in Hin. simpl in Hin.
  destruct Hin as [Heq | Hin].
  { injection Heq as <- <- <-.
    destruct (field_value Attribute (py "type") Attribute_type d c values)
      as [values' [v [Hstep Hval]]];
      [right; left; reflexivity | reflexivity | exact Hc | ].
    apply type_step_inv in Hstep. destruct Hstep as [t [-> [Hm _]]].
    exists (VStr t). split; [exact Hval | ].
    right. exists t. split; [apply is_member_In; exact Hm | reflexivity]. }
  assert (Hgen : forall M0 k0 E0 b,
             In M0 models ->
             (exists f,
                 find_field M0 k0 = Some f
                 /\ shape f = SHAPE_SINGLETON
                 /\ validators f = [enum_ E0 b]
                 /\ post_validators f = []
                 /\ default f = VNone
                 /\ allow_none f = negb (required f)
                 /\ (required f = false -> M0 = Ontology)) ->
             construct M0 d = inl (VObj c values) ->
             exists v,
               dict_get k0 values = Some v
               /\ ((v = VNone /\ M0 = Ontology)
                   \/ exists t,
                        In t (enum_values E0)
                        /\ v = if b then VStr t else VEnum (enum_name E0) t)).
  { intros M0 k0 E0 b HM [f [Hfind [Hs [Hv [Hp [Hd [Hn Hopt]]]]]]] Hc0.
    destruct (enum_field_value M0 k0 f E0 b d c values HM Hfind Hs Hv Hp Hd
                Hn Hc0) as [v [Hval [[-> Hreq] | Hmem]]].
    - exists VNone. split; [exact Hval | ]. left. auto.
    - exists v. split; [exact Hval | ]. right. exact Hmem. }
  destruct Hin as [Heq | Hin];
    [injection Heq as <- <- <-;
     apply (Hgen Sensor (py "type") SensorType true);
     [unfold models; simpl; tauto
     | eexists; repeat split; try reflexivity; discriminate
     | exact Hc] | ].
  destruct Hin as [Heq | Hin];
    [injection Heq as <- <- <-;
     apply (Hgen Ontology (py "image_type") OntologyImageType true);
     [unfold models; simpl; tauto
     | eexists; repeat split; reflexivity
     | exact Hc] | ].
  destruct Hin as [Heq | Hin];
    [injection Heq as <- <- <-;
     apply (Hgen Ontology (py "pcd_type") OntologyPcdType true);
     [unfold models; simpl; tauto
     | eexists; repeat split; reflexivity
     | exact Hc] | ].
  destruct Hin as [Heq | Hin];
    [injection Heq as <- <- <-;
     apply (Hgen Dataset (py "type") DatasetType false);
     [unfold models; simpl; tauto
     | eexists; repeat split; try reflexivity; discriminate
     | exact Hc] | ].
  destruct Hin as [Heq | Hin];
    [injection Heq as <- <- <-;
     apply (Hgen Dataset (py "data_source") DataSource false);
     [unfold models; simpl; tauto
     | eexists; repeat split; try reflexivity; discriminate
     | exact Hc] | ].
  destruct Hin as [Heq | Hin];
    [injection Heq as <- <- <-;
     apply (Hgen Dataset (py "annotation_format") AnnotationFormat false);
     [unfold models; simpl; tauto
     | eexists; repeat split; try reflexivity; discriminate
     | exact Hc] | ].
  destruct Hin as [Heq | Hin];
    [injection Heq as <- <- <-;
     apply (Hgen Dataset (py "status") DatasetStatus false);
     [unfold models; simpl; tauto
     | eexists; repeat split; try reflexivity; discriminate
     | exact Hc] | ].
  contradiction.
Qed.
End EnumInstances.

(** The scenario's Dataset stores the member of DataSource. *)
Lemma dataset7_data_source_member :
  In (Dataset, py "data_source", DataSource) enum_fields
  /\ exists c values,
      construct Dataset dataset7_input = inl (VObj c values)
      /\ exists v,
          dict_get (py "data_source") values = Some v
          /\ ((v = VNone /\ Dataset = Ontology)
              \/ exists t,
                   In t (enum_values DataSource)
                   /\ v = if pystr_eqb (model_name Dataset) (py "Dataset")
                          then VEnum (enum_name DataSource) t
                          else VStr t).
Proof.
  assert (Hin : In (Dataset, py "data_source", DataSource) enum_fields)
    by (do 5 right; left; reflexivity).
  split; [exact Hin | ].
  destruct (construct Dataset dataset7_input)
    as [[ | | | | | | | | c values] | es] eqn:Hc;
    try (vm_compute in Hc; discriminate Hc).
  exists c, values. split; [reflexivity | ].
  exact (enum_field_holds_value Dataset (py "data_source") DataSource
           dataset7_input c values Hin Hc).
Defined.

(** ** Lists and nested models *)

Lemma construct_inr_errors (M : Model) (d : dict) (e : ErrorWrapper) :
  In e (snd (validate_fields (fields M) d [] [])) ->
  construct M d = inr (snd (validate_fields (fields M) d [] [])).
Proof.
  rewrite <- validate_model_errors. unfold construct.
  destruct (validate_model M d) as [values [ | e0 errors]]; simpl.
  - intros [].
  - reflexivity.
Qed.

Section Nesting.
Context {R : Runtime} {C : Common}.

Lemma list_field_of (M : Model) (k : pystr) (Item : Model) :
  In (M, k, Item) list_fields ->
  exists f,
    find_field M k = Some f
    /\ shape f = SHAPE_LIST
    /\ validators f = [model_ Item].
Proof.
  unfold list_fields. simpl. intros H.
  repeat (destruct H as [H | H];
          [injection H as <- <- <-; eexists; repeat split; reflexivity | ]).
  contradiction.
Qed.

Lemma model_field_of (M : Model) (k : pystr) (Sub : Model) :
  In (M, k, Sub) model_fields ->
  exists f,
    find_field M k = Some f
    /\ shape f = SHAPE_SINGLETON
    /\ validators f = [model_ Sub].
Proof.
  unfold model_fields. simpl. intros H.
  repeat (destruct H as [H | H];
          [injection H as <- <- <-; eexists; repeat split; reflexivity | ]).
  contradiction.
Qed.

(** X11.  A list-typed field given a boolean, a number, a string, an
    enumeration member, a dictionary or a model instance fails the
    construction with "value is not a valid list" at that field.  (A tuple, a
    set and the other sequences pydantic takes for a list are not among the
    values modelled, and nothing is said about them.) *)
Theorem list_field_needs_a_list (M : Model) (k : pystr) (Item : Model)
  (d : dict) (x : PyVal) :
  In (M, k, Item) list_fields ->
  dict_get k d = Some x ->
  not_a_sequence x = true ->
  exists es,
    construct M d = inr es /\ In {| loc := [LKey k]; exc := ListError |} es.
Proof.
  intros Hin Hget Hkind.
  destruct (list_field_of M k Item Hin) as [f [Hfind [Hs _]]].
  apply (step_error_reported M k f d ListError Hfind).
  intros values. unfold field_step.
  destruct (find_field_In M k f Hfind) as [_ ->]. rewrite Hget.
  unfold field_validate, validate_sequence_like. rewrite Hs.
  destruct x; try reflexivity; discriminate Hkind.
Qed.

(** X12.  In every list-typed field, an item its model refuses fails the
    construction, and an error is located at the field and the index of that
    item. *)
Theorem refused_item_located (M : Model) (k : pystr) (Item : Model)
  (d : dict) (cs : list PyVal) (i : nat) (c : PyVal) :
  In (M, k, Item) list_fields ->
  dict_get k d = Some (VList cs) ->
  nth_error cs i = Some c ->
  (forall m, model_ Item [] c <> inl m) ->
  exists es e rest,
    construct M d = inr es
    /\ In e es
    /\ loc e = LKey k :: LIdx i :: rest.
Proof.
  intros Hin Hget Hnth Hbad.
  destruct (list_field_of M k Item Hin) as [f [Hfind [Hs Hv]]].
  destruct (find_field_In M k f Hfind) as [Hf Hname]. subst k.
  destruct (failing_step_reported
              (fun es => exists e rest, In e es /\ loc e = LIdx i :: rest)
              f d) with (fs := fields M) (values := @nil (pystr * PyVal))
                        (errors := @nil ErrorWrapper)
    as [es [[e [rest [He Hloc]]] Hincl]].
  - intros values. unfold field_step. rewrite Hget.
    exact (refused_item_fails_list f Item values cs i c Hs Hv Hnth Hbad).
  - exact Hf.
  - pose (e' := {| loc := LKey (name f) :: loc e; exc := exc e |}).
    assert (He' : In e' (snd (validate_fields (fields M) d [] []))).
    { apply Hincl. unfold under. apply in_map_iff. exists e. auto. }
    destruct (construct_fails M d e' He') as [es' [Hc Hin']].
    exists es', e', rest. split; [exact Hc | ]. split; [exact Hin' | ].
    simpl. rewrite Hloc. reflexivity.
Qed.

(** X13.  When the dictionary given for a model-typed field (the ontology of
    a Project, the project of a Dataset) is refused by that model, the outer
    construction fails and repeats every error of the inner one, with the
    field name put in front of its location. *)
Theorem nested_errors_repeated (M : Model) (k : pystr) (Sub : Model)
  (d sub : dict) (es : list ErrorWrapper) :
  In (M, k, Sub) model_fields ->
  dict_get k d = Some (VDict sub) ->
  construct Sub sub = inr es ->
  exists es',
    construct M d = inr es'
    /\ forall e, In e es -> In {| loc := LKey k :: loc e; exc := exc e |} es'.
Proof.
  intros Hin Hget Hsub.
  destruct (model_field_of M k Sub Hin) as [f [Hfind [Hs Hv]]].
  destruct (find_field_In M k f Hfind) as [Hf Hname]. subst k.
  destruct (failing_step_reported (fun x => x = es) f d)
    with (fs := fields M) (values := @nil (pystr * PyVal))
         (errors := @nil ErrorWrapper) as [es0 [-> Hincl]].
  - intros values. exists es. split; [ | reflexivity].
    unfold field_step. rewrite Hget. unfold field_validate.
    rewrite Hs, Hv. cbn [apply_validators model_]. rewrite Hsub.
    reflexivity.
  - exact Hf.
  - exists (snd (validate_fields (fields M) d [] [])).
    assert (Hall : forall e, In e es ->
                     In {| loc := LKey (name f) :: loc e; exc := exc e |}
                       (snd (validate_fields (fields M) d [] []))).
    { intros e He. apply Hincl. unfold under. apply in_map_iff.
      exists e. auto. }
    split; [ | exact Hall].
    destruct es as [ | e0 es1].
    + destruct (construct_errors_nonempty Sub sub [] Hsub). reflexivity.
    + apply (construct_inr_errors M d _ (Hall e0 (or_introl eq_refl))).
Qed.
End Nesting.

(** A Project whose sensors is the name of a sensor. *)
Lemma project_with_sensor_name :
  let d := dict_set (py "sensors") (VStr (py "cam0")) scenario_project_input in
  In (Project, py "sensors", Sensor) list_fields
  /\ dict_get (py "sensors") d = Some (VStr (py "cam0"))
  /\ not_a_sequence (VStr (py "cam0")) = true
  /\ exists es,
      construct Project d = inr es
      /\ In {| loc := [LKey (py "sensors")]; exc := ListError |} es.
Proof.
  intros d.
  assert (Hin : In (Project, py "sensors", Sensor) list_fields)
    by (do 3 right; left; reflexivity).
  split; [exact Hin | ]. split; [reflexivity | ]. split; [reflexivity | ].
  exact (list_field_needs_a_list Project (py "sensors") Sensor d
           (VStr (py "cam0")) Hin eq_refl eq_refl).
Defined.

(** A Project whose second sensor has no type. *)
Lemma project_with_bad_sensor :
  let bad := VDict [(py "name", VStr (py "cam1"))] in
  let d := dict_set (py "sensors") (VList [VDict cam0_input; bad])
             scenario_project_input in
  In (Project, py "sensors", Sensor) list_fields
  /\ dict_get (py "sensors") d = Some (VList [VDict cam0_input; bad])
  /\ nth_error [VDict cam0_input; bad] 1 = Some bad
  /\ (forall m, model_ Sensor [] bad <> inl m)
  /\ exists es e rest,
      construct Project d = inr es
      /\ In e es
      /\ loc e = LKey (py "sensors") :: LIdx 1 :: rest.
Proof.
  intros bad d.
  assert (Hin : In (Project, py "sensors", Sensor) list_fields)
    by (do 3 right; left; reflexivity).
  assert (Hbad : forall m, model_ Sensor [] bad <> inl m)
    by (intros m H; vm_compute in H; discriminate H).
  split; [exact Hin | ]. split; [reflexivity | ]. split; [reflexivity | ].
  split; [exact Hbad | ].
  exact (refused_item_located Project (py "sensors") Sensor d
           [VDict cam0_input; bad] 1 bad Hin eq_refl eq_refl Hbad).
Defined.

(** A Project whose ontology has no name and a class without [#]. *)
Lemma project_with_bad_ontology :
  let sub := [(py "classes",
                VList [VDict [(py "name", VStr (py "bus"));
                              (py "color", VStr (py "FF0000"));
                              (py "rank", VInt 2)]])] in
  let d := dict_set (py "ontology") (VDict sub) scenario_project_input in
  let es := [{| loc := [LKey (py "name")]; exc := MissingError |};
             {| loc := [LKey (py "classes"); LIdx 0; LKey (py "color")];
                exc := ValueError
                         (py "Color field needs starts with `#` and has 6 digits behind it, get : FF0000") |}] in
  In (Project, py "ontology", Ontology) model_fields
  /\ dict_get (py "ontology") d = Some (VDict sub)
  /\ construct Ontology sub = inr es
  /\ exists es',
      construct Project d = inr es'
      /\ forall e, In e es ->
           In {| loc := LKey (py "ontology") :: loc e; exc := exc e |} es'.
Proof.
  intros sub d es.
  assert (Hin : In (Project, py "ontology", Ontology) model_fields)
    by (left; reflexivity).
  assert (Hsub : construct Ontology sub = inr es)
    by (vm_compute; reflexivity).
  split; [exact Hin | ]. split; [reflexivity | ]. split; [exact Hsub | ].
  exact (nested_errors_repeated Project (py "ontology") Ontology d sub es
           Hin eq_refl Hsub).
Defined.

(** ** An OPTION attribute whose options are refused *)

Section RefusedOptions.
Context {R : Runtime} {C : Common}.

Lemma no_options_yet (d : dict) :
  forall values,
    dict_get (py "options") values = None ->
    dict_get (py "options")
      (fst (validate_fields
              [optional "id" SHAPE_SINGLETON [int_];
               annotated "name" SHAPE_SINGLETON [str_]] d values []))
    = None.
Proof.
  intros values Hv. rewrite validate_fields_untouched; [exact Hv | ].
  intros g [<- | [<- | []]]; vm_compute; discriminate.
Qed.

Lemma validate_fields_app (d : dict) (fs gs : list ModelField) :
  forall values errors,
    validate_fields (fs ++ gs) d values errors
    = validate_fields gs d
        (fst (validate_fields fs d values errors))
        (snd (validate_fields fs d values errors)).
Proof.
  induction fs as [ | f fs IH]; intros values errors; [reflexivity | ].
  rewrite <- app_comm_cons, !validate_fields_cons.
  destruct (field_step f d values); apply IH.
Qed.

(** X14.  When the type is OPTION and the value given for [options] is
    refused (not a list, or a list with a refused item), the construction
    reports two things: the errors of [options], and the class validator's
    "Need to assign value" at [type], since the validator finds no
    [options] among the validated fields. *)
Theorem refused_options_reported_twice (d : dict) (v : PyVal) :
  dict_get (py "type") d = Some v ->
  denotes v AttributeType_OPTION ->
  (forall values, fails (field_step Attribute_options d values)) ->
  exists es,
    construct Attribute d = inr es
    /\ (exists e rest, In e es /\ loc e = LKey (py "options") :: rest)
    /\ In {| loc := [LKey (py "type")];
             exc := ValueError
                      (py "Need to assign value for `options` if the Attribute type is option") |}
         es.
Proof.
  intros Hget Hden Hopt.
  pose (first_two := [optional "id" SHAPE_SINGLETON [int_];
                      annotated "name" SHAPE_SINGLETON [str_]]).
  pose (vals := fst (validate_fields first_two d [] [])).
  pose (errs := snd (validate_fields first_two d [] [])).
  assert (Hnone : dict_get (py "options") vals = None)
    by (apply no_options_yet; reflexivity).
  destruct (Hopt vals) as [eo Ho].
  assert (Heo : eo <> []).
  { apply (honest_field_step Attribute_options) with (d := d) (values := vals);
      [ | exact Ho].
    apply Attribute_fields_honest. simpl. auto. }
  assert (Hrun : snd (validate_fields (fields Attribute) d [] [])
                 = (errs ++ under (LKey (py "options")) eo)
                   ++ under (LKey (py "type"))
                        (error_at
                           (ValueError
                              (py "Need to assign value for `options` if the Attribute type is option")))).
  { change (fields Attribute)
      with (first_two ++ [Attribute_options; Attribute_type]).
    rewrite validate_fields_app. fold vals errs.
    rewrite validate_fields_cons, Ho.
    rewrite validate_fields_cons.
    rewrite (type_step d vals v AttributeType_OPTION Hget Hden
               AttributeType_OPTION_member).
    unfold option_data_validator, values_get. rewrite Hnone.
    cbn [eq_member]. rewrite pystr_eqb_refl. reflexivity. }
  exists (snd (validate_fields (fields Attribute) d [] [])).
  destruct eo as [ | e0 eo]; [destruct Heo; reflexivity | ].
  assert (He0 : In {| loc := LKey (py "options") :: loc e0; exc := exc e0 |}
                  (snd (validate_fields (fields Attribute) d [] []))).
  { rewrite Hrun. apply in_or_app. left. apply in_or_app. right.
    left. reflexivity. }
  split; [exact (construct_inr_errors Attribute d _ He0) | ].
  split.
  - eexists. exists (loc e0). split; [exact He0 | reflexivity].
  - rewrite Hrun. apply in_or_app. right. left. reflexivity.
Qed.
End RefusedOptions.

(** An option attribute whose options is the string "red". *)
Lemma attribute_with_options_string :
  let d := [(py "name", VStr (py "colour")); (py "options", VStr (py "red"));
            (py "type", VStr (py "option"))] in
  dict_get (py "type") d = Some (VStr (py "option"))
  /\ denotes (VStr (py "option")) AttributeType_OPTION
  /\ (forall values, fails (field_step Attribute_options d values))
  /\ exists es,
      construct Attribute d = inr es
      /\ (exists e rest, In e es /\ loc e = LKey (py "options") :: rest)
      /\ In {| loc := [LKey (py "type")];
               exc := ValueError
                        (py "Need to assign value for `options` if the Attribute type is option") |}
           es.
Proof.
  intros d.
  assert (Hden : denotes (VStr (py "option")) AttributeType_OPTION)
    by (left; reflexivity).
  assert (Hopt : forall values, fails (field_step Attribute_options d values))
    by (intros values; eexists; vm_compute; reflexivity).
  split; [reflexivity | ]. split; [exact Hden | ]. split; [exact Hopt | ].
  exact (refused_options_reported_twice d (VStr (py "option")) eq_refl Hden
           Hopt).
Defined.

(** ** [Project.create_dataset]: one request at most *)

Section OneRequest.
Variables (self : addr).
Variables (name data_source sensors type annotation_format storage_url
             data_folder : PyVal).
Variables (container_name sas_token sequential generate_metadata description
             : option PyVal).

Local Abbreviation request :=
  (request_of self name data_source sensors type annotation_format
     storage_url data_folder container_name sas_token sequential
     generate_metadata description).

Local Abbreviation call :=
  (create_dataset self name data_source sensors type annotation_format
     storage_url data_folder container_name sas_token sequential
     generate_metadata description).

(** X15.  A call sends the client one request or none.  With a client in
    place its [create_dataset] is invoked exactly once, whether it returns or
    raises (nothing is retried), and [config] is left as it was; otherwise
    the whole process state is left as it was. *)
Theorem create_dataset_one_request (w : World) :
  (exists method,
      config w = Imported (Some (Client method))
      /\ calls (snd (call w)) = calls w ++ [request]
      /\ config (snd (call w)) = config w)
  \/ ((forall method, config w <> Imported (Some (Client method)))
      /\ snd (call w) = w).
Proof.
  rewrite create_dataset_cases.
  destruct (config w) as [e | [[ | method] | ]] eqn:Hc.
  - right. split; [intros method; discriminate | reflexivity].
  - right. split; [intros method; discriminate | reflexivity].
  - left. exists method. simpl. auto.
  - right. split; [intros method; discriminate | reflexivity].
Qed.

(** X16.  With [config._client] bound to [None] the lookup succeeds, so no
    ClientConnectionError is raised: the call fails with the AttributeError of
    [None.create_dataset], and the process state is left as it was. *)
Theorem create_dataset_client_None (w : World) :
  config w = Imported (Some PyNone) ->
  call w
  = (inr (Exc AttributeError
            (py "'NoneType' object has no attribute 'create_dataset'")
            None None), w).
Proof.
  intros Hc. rewrite create_dataset_cases, Hc. reflexivity.
Qed.
End OneRequest.

(** The scenario with [_client = None]. *)
Lemma scenario_with_client_None :
  config (world_with (Imported (Some PyNone))) = Imported (Some PyNone)
  /\ scenario_call (VList [cam0]) (world_with (Imported (Some PyNone)))
     = (inr (Exc AttributeError
               (py "'NoneType' object has no attribute 'create_dataset'")
               None None),
        world_with (Imported (Some PyNone))).
Proof.
  split; [reflexivity | ].
  unfold scenario_call. apply create_dataset_client_None. reflexivity.
Defined.

(** ** Round trip of a Sensor *)

Section SensorRoundTrip.
Context {R : Runtime} {C : Common}.

Lemma optional_int_step (k : string) (d values : dict) (v : PyVal) :
  field_step (optional k SHAPE_SINGLETON [int_]) d values = inl v ->
  v = VNone \/ exists z, v = VInt z.
Proof.
  unfold field_step.
  destruct (dict_get (name (optional k SHAPE_SINGLETON [int_])) d) as [x | ].
  - unfold field_validate.
    cbn [allow_none shape validators post_validators optional
           apply_validators].
    unfold int_, scalar.
    destruct x; try (intros H; injection H as <-; auto);
      (destruct (int_validator _) as [n | ]; [ | discriminate]);
      intros H; injection H as <-; right; exists n; reflexivity.
  - intros H. injection H as <-. auto.
Qed.

Lemma str_step (k : string) (d values : dict) (v : PyVal) :
  field_step (annotated k SHAPE_SINGLETON [str_]) d values = inl v ->
  exists s, v = VStr s.
Proof.
  unfold field_step.
  destruct (dict_get (name (annotated k SHAPE_SINGLETON [str_])) d) as [x | ];
    [ | discriminate].
  unfold field_validate.
  cbn [allow_none shape validators post_validators annotated
         apply_validators].
  unfold str_, scalar.
  destruct x; try discriminate;
    (destruct (str_validator _) as [r | ]; [ | discriminate]);
    intros H; injection H as <-; exists r; reflexivity.
Qed.

Lemma Sensor_fields_honest (f : ModelField) :
  In f (fields Sensor) -> honest_field f.
Proof.
  apply models_honest. right. right. left. reflexivity.
Qed.

(** What a Sensor instance is made of. *)
Lemma Sensor_inv (d : dict) (m : PyVal) :
  construct Sensor d = inl m ->
  exists v1 s t,
    m = VObj (py "Sensor")
          [(py "id", v1); (py "name", VStr s); (py "type", VStr t)]
    /\ (v1 = VNone \/ exists z, v1 = VInt z)
    /\ is_member SensorType t = true.
Proof.
  intros Hc. apply construct_inl_inv in Hc.
  destruct Hc as [vals [Hrun ->]].
  change (fields Sensor)
    with [optional "id" SHAPE_SINGLETON [int_];
          annotated "name" SHAPE_SINGLETON [str_];
          annotated "type" SHAPE_SINGLETON [enum_ SensorType true]] in Hrun.
  apply validate_fields_ok_cons in Hrun;
    [ | apply Sensor_fields_honest; simpl; auto].
  destruct Hrun as [v1 [H1 Hrun]].
  apply validate_fields_ok_cons in Hrun;
    [ | apply Sensor_fields_honest; simpl; auto].
  destruct Hrun as [v2 [H2 Hrun]].
  apply validate_fields_ok_cons in Hrun;
    [ | apply Sensor_fields_honest; simpl; auto].
  destruct Hrun as [v3 [H3 Hrun]].
  simpl in Hrun. injection Hrun as <-.
  apply optional_int_step in H1.
  apply str_step in H2. destruct H2 as [s ->].
  eapply enum_step_inv in H3; try reflexivity.
  destruct H3 as [[_ Hreq] | [t [Ht ->]]]; [discriminate Hreq | ].
  exists v1, s, t. split; [reflexivity | ]. split; [exact H1 | ].
  apply is_member_In. exact Ht.
Qed.

(** X17.  A Sensor instance survives a round trip: [dict()] of it, passed
    back to the constructor, gives the same instance. *)
Theorem Sensor_round_trip (d : dict) (m : PyVal) :
  construct Sensor d = inl m ->
  exists out, model_dict m = Some out /\ construct Sensor out = inl m.
Proof.
  intros Hc.
  destruct (Sensor_inv d m Hc) as [v1 [s [t [-> [Hid Hm]]]]].
  exists [(py "id", v1); (py "name", VStr s); (py "type", VStr t)].
  split.
  - destruct Hid as [-> | [z ->]]; reflexivity.
  - unfold construct, validate_model.
    destruct Hid as [-> | [z ->]];
      simpl; unfold int_, str_, scalar, enum_;
      rewrite ?int_validator_int, !str_validator_str; simpl;
      rewrite Hm; reflexivity.
Qed.
End SensorRoundTrip.

(** The scenario's sensor. *)
Lemma cam0_round_trip :
  construct Sensor cam0_input = inl cam0
  /\ exists out, model_dict cam0 = Some out /\ construct Sensor out = inl cam0.
Proof.
  assert (Hc : construct Sensor cam0_input = inl cam0)
    by (vm_compute; reflexivity).
  split; [exact Hc | ].
  exact (Sensor_round_trip cam0_input cam0 Hc).
Defined.

(** ** The colour check on seven characters *)

Section SevenCharacters.
Context {R : Runtime} {C : Common}.

Lemma lstrip_hash_same_length (s : pystr) :
  List.length (lstrip_hash s) = List.length s -> lstrip_hash s = s.
Proof.
  destruct s as [ | c s]; [reflexivity | ].
  simpl. destruct (N.eqb c 35); [ | reflexivity].
  intros H. pose proof (lstrip_hash_length s). simpl in H. lia.
Qed.

(** X18.  Among the strings of seven characters the check accepts exactly
    those of the form [#] plus six characters of [[a-zA-Z0-9]]; every string
    of that form has seven characters. *)
Theorem seven_characters_checked_exactly (s : pystr) :
  color_pattern s = true
  <-> List.length s = 7 /\ color_validator s = inl s.
Proof.
  split.
  - intros Hp. split; [ | apply color_pattern_accepted; exact Hp].
    destruct s as [ | c six]; [discriminate Hp | ].
    unfold color_pattern in Hp. rewrite !andb_true_iff in Hp.
    destruct Hp as [[_ Hlen] _]. apply Nat.eqb_eq in Hlen.
    simpl. rewrite Hlen. reflexivity.
  - intros [Hlen Hacc]. unfold color_validator in Hacc.
    destruct s as [ | c t]; [discriminate Hlen | ].
    cbn [startswith_hash lstrip_hash] in Hacc.
    destruct (N.eqb c 35) eqn:Hc; [ | discriminate Hacc].
    cbn [negb orb] in Hacc.
    destruct (re_search (lstrip_hash t)) eqn:Hs; [ | discriminate Hacc].
    unfold re_search in Hs. apply search_from_iff in Hs.
    destruct Hs as [pre [mid [post [Heq [[Hmid Hall] _]]]]].
    simpl in Hlen.
    pose proof (lstrip_hash_length t) as Hle.
    assert (Hl : List.length (lstrip_hash t) = List.length pre + 6
                                               + List.length post)
      by (rewrite Heq, !length_app; lia).
    assert (Hsame : lstrip_hash t = t)
      by (apply lstrip_hash_same_length; lia).
    destruct pre as [ | p pre]; [ | simpl in Hl; lia].
    destruct post as [ | q post]; [ | simpl in Hl; lia].
    rewrite Hsame in Heq. simpl in Heq. rewrite app_nil_r in Heq. subst t.
    unfold color_pattern. rewrite Hc, Hmid, Hall. reflexivity.
Qed.
End SevenCharacters.

(** The colour "#ABC". *)
Lemma ABC_refused :
  List.length (py "#ABC") < 7
  /\ color_validator (py "#ABC")
     = inr (py "Color field needs starts with `#` and has 6 digits behind it, get : "
            ++ py "#ABC").
Proof.
  assert (Hlen : List.length (py "#ABC") < 7) by (simpl; lia).
  split; [exact Hlen | ].
  exact (short_color_refused (py "#ABC") Hlen).
Defined.

(** ** Option values *)

Section OptionValues.
Context {R : Runtime} {C : Common}.

(** X19.  [value] is annotated [Union[str, float, int, bool]] with [str]
    first, so a string given as the value of an AttributeOption is stored as
    that same string: it is never turned into a number or a boolean. *)
Theorem AttributeOption_keeps_strings (d : dict) (s : pystr) (c : pystr)
  (values : dict) :
  dict_get (py "value") d = Some (VStr s) ->
  construct AttributeOption d = inl (VObj c values) ->
  dict_get (py "value") values = Some (VStr s).
Proof.
  intros Hget Hc.
  destruct (field_value AttributeOption (py "value")
              (annotated "value" SHAPE_SINGLETON
                 [union_ [str_; float_; int_; bool_]])
              d c values)
    as [values' [v [Hstep Hval]]];
    [left; reflexivity | reflexivity | exact Hc | ].
  unfold field_step in Hstep.
  change (name (annotated "value" SHAPE_SINGLETON
                  [union_ [str_; float_; int_; bool_]]))
    with (py "value") in Hstep.
  rewrite Hget in Hstep. unfold field_validate in Hstep.
  cbn [allow_none shape validators post_validators annotated
         apply_validators union_] in Hstep.
  unfold str_ at 1, scalar at 1 in Hstep.
  rewrite str_validator_str in Hstep.
  injection Hstep as <-. exact Hval.
Qed.
End OptionValues.

(** The option "1", a string of one digit. *)
Lemma option_one_kept :
  let d := [(py "value", VStr (py "1"))] in
  dict_get (py "value") d = Some (VStr (py "1"))
  /\ exists c values,
      construct AttributeOption d = inl (VObj c values)
      /\ dict_get (py "value") values = Some (VStr (py "1")).
Proof.
  intros d. split; [reflexivity | ].
  destruct (construct AttributeOption d)
    as [[ | | | | | | | | c values] | es] eqn:Hc;
    try (vm_compute in Hc; discriminate Hc).
  exists c, values. split; [reflexivity | ].
  exact (AttributeOption_keeps_strings d (py "1") c values eq_refl Hc).
Defined.
